(** * A shallow embedding of [webscraper_weather.py]

    The scraper visits a fixed list of weather stations on a web form,
    reads one table row per year, turns every row into twelve monthly
    records and appends them to one of two data sets, which are
    written to two JSON files at the very end.

    Text is modelled with [string]: a character is a code point below
    256, on which Python's [\d] is exactly the class [0-9].  Python
    exceptions are values of [exn]; a computation that touches the
    scraper object, the browser or the file system is a function from
    a [World] to an outcome and the [World] in which it stopped, so
    the state reached at the moment of a [raise] stays observable. *)

From Stdlib Require Import String Ascii List Arith Bool Lia DecimalString.
Import ListNotations.

Local Open Scope string_scope.
Local Open Scope list_scope.
Local Open Scope nat_scope.

Set Implicit Arguments.

(** ** Exceptions and results *)

Inductive exn : Type :=
| IndexError                      (* [data[0]] on an empty list *)
| KeyError (key : string)         (* missing key of a [dict] *)
| ValueError                      (* length of values does not match length of index *)
| TypeError                       (* [re.sub] on a value that is not a string *)
| OutOfBoundsDatetime             (* date outside the range of a pandas Timestamp *)
| AttributeError                  (* attribute read before it was set *)
| External (msg : string).        (* raised by selenium, dateutil or the OS *)

Inductive result (A : Type) : Type :=
| Ok (a : A)
| Raise (e : exn).

Arguments Ok {A} a.
Arguments Raise {A} e.

Definition rbind {A B} (r : result A) (f : A -> result B) : result B :=
  match r with
  | Ok a => f a
  | Raise e => Raise e
  end.

(** [[f(x) for x in l]] for an [f] that may raise: left to right,
    stopping at the first exception. *)
Fixpoint mapR {A B} (f : A -> result B) (l : list A) : result (list B) :=
  match l with
  | [] => Ok []
  | x :: l' =>
      rbind (f x) (fun y => rbind (mapR f l') (fun ys => Ok (y :: ys)))
  end.

(** ** Characters and strings *)

Definition is_digit (c : ascii) : bool :=
  (48 <=? nat_of_ascii c) && (nat_of_ascii c <=? 57).

Definition is_dot (c : ascii) : bool := Ascii.eqb c ".".

Definition newline : ascii := ascii_of_nat 10.

(** [s.startswith(l)], returning the rest of [s] after [l]. *)
Fixpoint strip_prefix (l s : string) : option string :=
  match l with
  | EmptyString => Some s
  | String a l' =>
      match s with
      | EmptyString => None
      | String c s' => if Ascii.eqb a c then strip_prefix l' s' else None
      end
  end.

(** ** The regular expression of [load_data]

    [r'\nRevision: (\d+\.+\-)'] is a sequence of literals and of
    greedy one-or-more repetitions of a character class.  The group
    only captures; the replacement [''] does not refer to it. *)

Inductive atom : Type :=
| Lit (l : string)
| Plus (cls : ascii -> bool).

Definition regex := list atom.

(** Greedy [cls+] followed by the continuation [k]: take one more
    character when possible, and give characters back (backtrack) when
    the continuation fails. *)
Fixpoint match_plus (cls : ascii -> bool) (k : string -> option string)
         (s : string) : option string :=
  match s with
  | EmptyString => None
  | String c s' =>
      if cls c then
        match match_plus cls k s' with
        | Some rest => Some rest
        | None => k s'
        end
      else None
  end.

(** [re.match]: the text left after the first way the pattern matches
    at the head of [s]. *)
Fixpoint match_here (p : regex) (s : string) : option string :=
  match p with
  | [] => Some s
  | Lit l :: p' =>
      match strip_prefix l s with
      | Some s' => match_here p' s'
      | None => None
      end
  | Plus cls :: p' => match_plus cls (match_here p') s
  end.

(** [re.sub(p, repl, s)]: leftmost non-overlapping matches, scanned
    from left to right.  [skip] counts the characters of the current
    match still to be dropped.  A match of no character leaves the
    character in place (the pattern of this program starts with a
    literal and never matches the empty text). *)
Fixpoint sub_from (p : regex) (repl : string) (skip : nat) (s : string)
  : string :=
  match s with
  | EmptyString => EmptyString
  | String c s' =>
      match skip with
      | S k => sub_from p repl k s'
      | O =>
          match match_here p s with
          | Some rest =>
              match String.length s - String.length rest with
              | O => (repl ++ String c (sub_from p repl 0 s'))%string
              | S k => (repl ++ sub_from p repl k s')%string
              end
          | None => String c (sub_from p repl 0 s')
          end
      end
  end.

Definition re_sub (p : regex) (repl s : string) : string :=
  sub_from p repl 0 s.

Definition revision_prefix : string := String newline "Revision: ".

Definition revision_re : regex :=
  [Lit revision_prefix; Plus is_digit; Plus is_dot; Lit "-"].

(** [lambda row: re.sub(r'\nRevision: (\d+\.+\-)', '', row)] *)
Definition sanitize (row : string) : string :=
  re_sub revision_re "" row.

(** [re.search(p, s) is not None] *)
Fixpoint re_search (p : regex) (s : string) : bool :=
  match match_here p s with
  | Some _ => true
  | None =>
      match s with
      | EmptyString => false
      | String _ s' => re_search p s'
      end
  end.

Definition has_revision (s : string) : bool := re_search revision_re s.

(** ** Dates

    [pd.to_datetime(str(year)+'-'+str(m)+'-1').strftime(format='%Y-%m-%d')].
    A text of the shape [YYYY-M-D] that names a day of the calendar
    between 1677-09-22 and 2262-04-11, the days that a Timestamp of
    nanoseconds holds, is read as that day by every version of pandas.
    A day outside that range raises [OutOfBoundsDatetime] in the
    versions that keep nanoseconds and is built as it is in later
    ones, and every other text goes to the general parser pandas falls
    back on: both are left to [dateutil], a parameter of the model
    that stands for the rest of [pd.to_datetime]. *)

Record Timestamp : Type := mkTimestamp {
  ts_year : nat;
  ts_month : nat;
  ts_day : nat
}.

Definition digit_val (c : ascii) : nat := nat_of_ascii c - 48.

Definition digit_char (n : nat) : ascii := ascii_of_nat (48 + n).

(** One digit, and a second one when a digit follows. *)
Definition read_digits_1_2 (s : string) : option (nat * string) :=
  match s with
  | EmptyString => None
  | String a s1 =>
      if is_digit a then
        match s1 with
        | String b s2 =>
            if is_digit b then Some (10 * digit_val a + digit_val b, s2)
            else Some (digit_val a, s1)
        | EmptyString => Some (digit_val a, s1)
        end
      else None
  end.

Definition parse_iso (s : string) : option Timestamp :=
  match s with
  | String y1 (String y2 (String y3 (String y4 (String sep1 rest1)))) =>
      if is_digit y1 && is_digit y2 && is_digit y3 && is_digit y4
         && Ascii.eqb sep1 "-"
      then
        match read_digits_1_2 rest1 with
        | Some (m, String sep2 rest2) =>
            if Ascii.eqb sep2 "-" then
              match read_digits_1_2 rest2 with
              | Some (d, EmptyString) =>
                  Some (mkTimestamp
                          (1000 * digit_val y1 + 100 * digit_val y2
                           + 10 * digit_val y3 + digit_val y4) m d)
              | _ => None
              end
            else None
        | _ => None
        end
      else None
  | _ => None
  end.

Definition is_leap (y : nat) : bool :=
  ((y mod 4 =? 0) && negb (y mod 100 =? 0)) || (y mod 400 =? 0).

Definition days_in_month (y m : nat) : nat :=
  match m with
  | 2 => if is_leap y then 29 else 28
  | 4 | 6 | 9 | 11 => 30
  | _ => 31
  end.

Definition valid_date (t : Timestamp) : bool :=
  (1 <=? ts_month t) && (ts_month t <=? 12)
  && (1 <=? ts_day t) && (ts_day t <=? days_in_month (ts_year t) (ts_month t)).

(** Lexicographic order on (year, month, day). *)
Definition date_leb (a b : Timestamp) : bool :=
  (ts_year a <? ts_year b)
  || ((ts_year a =? ts_year b)
      && ((ts_month a <? ts_month b)
          || ((ts_month a =? ts_month b) && (ts_day a <=? ts_day b)))).

Definition Timestamp_min : Timestamp := mkTimestamp 1677 9 22.
Definition Timestamp_max : Timestamp := mkTimestamp 2262 4 11.

Definition in_bounds (t : Timestamp) : bool :=
  date_leb Timestamp_min t && date_leb t Timestamp_max.

Definition to_datetime (dateutil : string -> result Timestamp) (s : string)
  : result Timestamp :=
  match parse_iso s with
  | Some t =>
      if valid_date t then
        if in_bounds t then Ok t else dateutil s
      else dateutil s
  | None => dateutil s
  end.

Definition pad2 (n : nat) : string :=
  String (digit_char (n / 10 mod 10)) (String (digit_char (n mod 10)) "").

Definition pad4 (n : nat) : string :=
  String (digit_char (n / 1000 mod 10))
    (String (digit_char (n / 100 mod 10)) (pad2 n)).

(** [strftime(format='%Y-%m-%d')]; the year of a Timestamp has four
    digits. *)
Definition strftime (t : Timestamp) : string :=
  pad4 (ts_year t) ++ "-" ++ pad2 (ts_month t) ++ "-" ++ pad2 (ts_day t).

(** [str(m)] for a non-negative [int]. *)
Definition str (n : nat) : string := NilEmpty.string_of_uint (Nat.to_uint n).

(** [range(1, 13, 1)] *)
Definition months : list nat := seq 1 12.

(** The list [dates] of [load_data]. *)
Definition dates (dateutil : string -> result Timestamp) (year : string)
  : result (list string) :=
  mapR (fun m =>
          rbind (to_datetime dateutil (year ++ "-" ++ str m ++ "-1"))
                (fun t => Ok (strftime t)))
       months.

(** ** The frame of one table row *)

Record observation : Type := mkObservation {
  Time : string;
  Value : string;
  Station : string
}.

(** A cell of the [Value] column while the frame is built: a text, or
    NaN ([None]) where pandas had to invent the row. *)
Definition cell := option string.

(** [data[1:-1]] *)
Definition interior (data : list string) : list string :=
  removelast (tl data).

(** [data_insert['Time'] = dates] on a frame whose only column is
    [Value].  A frame without any row takes its index from the new
    column and fills [Value] with NaN; otherwise the lengths have to
    agree. *)
Definition set_Time (value_col : list cell) (new : list string)
  : result (list cell * list string) :=
  match value_col, new with
  | [], _ :: _ => Ok (repeat None (length new), new)
  | _, _ =>
      if length value_col =? length new then Ok (value_col, new)
      else Raise ValueError
  end.

(** [data_insert.Value.apply(lambda row: re.sub(..., '', row))]:
    [re.sub] accepts a text only. *)
Definition apply_sanitize (value_col : list cell) : result (list string) :=
  mapR (fun c : cell =>
          match c with
          | Some row => Ok (sanitize row)
          | None => Raise TypeError
          end)
       value_col.

Fixpoint zip_rows (station : string) (vs ts : list string) : list observation :=
  match vs, ts with
  | v :: vs', t :: ts' => mkObservation t v station :: zip_rows station vs' ts'
  | _, _ => []
  end.

(** The frame [data_insert] of a row that is not the header, as it is
    when it reaches [pd.concat]. *)
Definition data_insert (dateutil : string -> result Timestamp)
           (station : string) (data : list string) : result (list observation) :=
  let year := hd "" data in
  let values := map Some (interior data) in
  rbind (dates dateutil year) (fun ds =>
  rbind (set_Time values ds) (fun '(value_col, time_col) =>
  rbind (apply_sanitize value_col) (fun value_col' =>
  Ok (zip_rows station value_col' time_col)))).

(** ** The configuration

    The module-level [station_dict]: station name, then the id of the
    station on the site and the id of the kind of data. *)

Definition station_dict : list (string * (string * string)) :=
  [ ("WAKKANAI", ("47401", "1"));
    ("HABORO", ("47404", "1"));
    ("RUMOI", ("47406", "1"));
    ("OBIHIRO", ("47417", "1"));
    ("OMU", ("47405", "4"));
    ("SUTTSU", ("47421", "4"));
    ("MURORAN", ("47423", "4"));
    ("KUTCHAN", ("47433", "4")) ].

(** [d[k]] *)
Fixpoint dict_get {V} (d : list (string * V)) (k : string) : result V :=
  match d with
  | [] => Raise (KeyError k)
  | (k', v) :: d' => if String.eqb k' k then Ok v else dict_get d' k
  end.

(** Iterating a [dict] yields its keys in insertion order. *)
Definition keys {V} (d : list (string * V)) : list string := map fst d.

(** ** The browser

    Selenium is an external collaborator: every call may raise and
    may change the state of the browser.  What the site shows is
    whatever a value of this interface answers. *)

Record WebDriver : Type := {
  browser : Type;
  element : Type;
  Chrome : result browser;
  get : string -> browser -> result unit * browser;
  implicitly_wait : nat -> browser -> result unit * browser;
  find_element_by_name : string -> browser -> result element * browser;
  find_element_by_xpath : string -> browser -> result element * browser;
  find_elements_by_xpath : string -> browser -> result (list element) * browser;
  elem_find_elements_by_xpath :
    element -> string -> browser -> result (list element) * browser;
  text : element -> browser -> result string * browser;
  click : element -> browser -> result unit * browser;
  Select_init : element -> browser -> result element * browser;
  select_by_value : element -> string -> browser -> result unit * browser;
  close : browser -> result unit * browser
}.

Definition dquote : ascii := ascii_of_nat 34.

Definition table_xpath : string :=
  "//*[contains(@class," ++ String dquote "data2_s" ++ String dquote ")]//tr".

Definition elem_xpath : string := ".//*[self::td or self::th]".

Definition url : string :=
  "http://www.data.jma.go.jp/obd/stats/etrn/view/monthly_s3_en.php?block_no=47401&view=1".

Definition sub_xpath : string :=
  "//input[@value=" ++ String dquote "Refresh" ++ String dquote "]".

(** ['//option[@value="{}"]'.format(v)] *)
Definition el_xpath (v : string) : string :=
  "//option[@value=" ++ String dquote v ++ String dquote "]".

Section Scraper.

Variable drv : WebDriver.
Variable dateutil : string -> result Timestamp.

(** The scraper object and the files of the working directory. *)
Record World : Type := mkWorld {
  self_station_dict : list (string * (string * string));
  data_temp : list observation;
  data_wind : list observation;
  driver : option (browser drv);
  files : list (string * list observation)
}.

Definition M (A : Type) : Type := World -> result A * World.

Definition ret {A} (a : A) : M A := fun w => (Ok a, w).

Definition raise {A} (e : exn) : M A := fun w => (Raise e, w).

Definition bind {A B} (c : M A) (k : A -> M B) : M B :=
  fun w =>
    match c w with
    | (Ok a, w') => k a w'
    | (Raise e, w') => (Raise e, w')
    end.

Definition lift {A} (r : result A) : M A := fun w => (r, w).

Notation "x <- c ;; k" := (bind c (fun x => k))
  (at level 61, c at next level, right associativity).
Notation "c ;; k" := (bind c (fun _ => k))
  (at level 61, right associativity).

(** [for x in l: body(x)] *)
Fixpoint for_each {A} (l : list A) (body : A -> M unit) : M unit :=
  match l with
  | [] => ret tt
  | x :: l' => body x ;; for_each l' body
  end.

(** [[f(x) for x in l]] *)
Fixpoint mapM {A B} (f : A -> M B) (l : list A) : M (list B) :=
  match l with
  | [] => ret []
  | x :: l' => y <- f x ;; ys <- mapM f l' ;; ret (y :: ys)
  end.

(** A call on [self.driver]. *)
Definition on_driver {A} (op : browser drv -> result A * browser drv) : M A :=
  fun w =>
    match driver w with
    | None => (Raise AttributeError, w)
    | Some b =>
        let (r, b') := op b in
        (r, mkWorld (self_station_dict w) (data_temp w) (data_wind w)
                    (Some b') (files w))
    end.

Definition set_data_temp (df : list observation) : M unit :=
  fun w => (Ok tt, mkWorld (self_station_dict w) df (data_wind w)
                           (driver w) (files w)).

Definition set_data_wind (df : list observation) : M unit :=
  fun w => (Ok tt, mkWorld (self_station_dict w) (data_temp w) df
                           (driver w) (files w)).

(** [set_webdriver]: the options cannot fail; starting Chromium can. *)
Definition set_webdriver : M unit :=
  fun w =>
    match Chrome drv with
    | Ok b => (Ok tt, mkWorld (self_station_dict w) (data_temp w)
                              (data_wind w) (Some b) (files w))
    | Raise e => (Raise e, w)
    end.

(** The body of the loop of [load_data] once the cells of the row
    have been read; [pd.concat] of two frames is the rows of the
    first followed by the rows of the second. *)
Definition load_row (station data_type : string) (data : list string)
  : M unit :=
  match data with
  | [] => raise IndexError
  | year :: _ =>
      if negb (String.eqb year "Year") then
        ins <- lift (data_insert dateutil station data) ;;
        if String.eqb data_type "1" then
          fun w => set_data_temp (data_temp w ++ ins) w
        else if String.eqb data_type "4" then
          fun w => set_data_wind (data_wind w ++ ins) w
        else ret tt
      else ret tt
  end.

(** [load_data(self, driver, station, data_type)]; the argument
    [driver] is [self.driver] itself.  The [print] calls are left
    out. *)
Definition load_data (station data_type : string) : M unit :=
  tabs <- on_driver (find_elements_by_xpath drv table_xpath) ;;
  for_each tabs (fun tab =>
    cells <- on_driver (elem_find_elements_by_xpath drv tab elem_xpath) ;;
    data <- mapM (fun i => on_driver (text drv i)) cells ;;
    load_row station data_type data).

(** One turn of the loop of [get_data]. *)
Definition get_station (station : string) : M unit :=
  e <- on_driver (find_element_by_name drv "block_no") ;;
  sel_station <- on_driver (Select_init drv e) ;;
  entry <- lift (dict_get station_dict station) ;;
  on_driver (select_by_value drv sel_station (fst entry)) ;;
  entry <- lift (dict_get station_dict station) ;;
  opt <- on_driver (find_element_by_xpath drv (el_xpath (snd entry))) ;;
  on_driver (click drv opt) ;;
  btn <- on_driver (find_element_by_xpath drv sub_xpath) ;;
  on_driver (click drv btn) ;;
  on_driver (implicitly_wait drv 10) ;;
  entry <- lift (dict_get station_dict station) ;;
  load_data station (snd entry) ;;
  on_driver (implicitly_wait drv 10).

Definition get_data : M unit :=
  on_driver (get drv url) ;;
  on_driver (implicitly_wait drv 10) ;;
  fun w => for_each (keys (self_station_dict w)) get_station w.

(** [df.to_json(orient='records', path_or_buf=path)]: the file at
    [path] is replaced by the rows of [df]. *)
Definition to_json (df : list observation) (path : string) : M unit :=
  fun w =>
    (Ok tt,
     mkWorld (self_station_dict w) (data_temp w) (data_wind w) (driver w)
             ((path, df)
                :: filter (fun f => negb (String.eqb (fst f) path)) (files w))).

Definition write_data : M unit :=
  (fun w => to_json (data_temp w) "data_temp.json" w) ;;
  (fun w => to_json (data_wind w) "data_wind.json" w).

Definition pipeline : M unit :=
  set_webdriver ;;
  get_data ;;
  on_driver (close drv) ;;
  write_data.

(** [WebScraper(station_dict)] run in a directory holding [fs]. *)
Definition WebScraper (arg : list (string * (string * string)))
           (fs : list (string * list observation)) : result unit * World :=
  pipeline (mkWorld arg [] [] None fs).

End Scraper.

(** ** Predicates used in the statements *)

(** The value of a year written with exactly four digits. *)
Definition year_value (y : string) : option nat :=
  match y with
  | String a (String b (String c (String d EmptyString))) =>
      if is_digit a && is_digit b && is_digit c && is_digit d then
        Some (1000 * digit_val a + 100 * digit_val b
              + 10 * digit_val c + digit_val d)
      else None
  | _ => None
  end.

(** A year cell whose twelve months all fit in a Timestamp. *)
Definition well_formed_year (y : string) : bool :=
  match year_value y with
  | Some n => (1678 <=? n) && (n <=? 2261)
  | None => false
  end.

Fixpoint all_chars (cls : ascii -> bool) (s : string) : bool :=
  match s with
  | EmptyString => true
  | String c s' => cls c && all_chars cls s'
  end.

(** A non-empty run of characters of one class. *)
Definition run_of (cls : ascii -> bool) (s : string) : bool :=
  negb (String.eqb s "") && all_chars cls s.

Fixpoint occurs (x : ascii) (s : string) : bool :=
  match s with
  | EmptyString => false
  | String c s' => Ascii.eqb x c || occurs x s'
  end.

(** No atom of the pattern can consume the character [x]. *)
Fixpoint rejects (x : ascii) (p : regex) : bool :=
  match p with
  | [] => true
  | Lit l :: p' => negb (occurs x l) && rejects x p'
  | Plus cls :: p' => negb (cls x) && rejects x p'
  end.

(** The suffixes [-01-01] ... [-12-01] of the twelve time stamps. *)
Definition month_suffixes : list string :=
  [ "-01-01"; "-02-01"; "-03-01"; "-04-01"; "-05-01"; "-06-01";
    "-07-01"; "-08-01"; "-09-01"; "-10-01"; "-11-01"; "-12-01" ].

(** The stations of [station_dict] that are configured with the kind
    of data [code]. *)
Definition configured_with (code : string) (station : string) : bool :=
  match dict_get station_dict station with
  | Ok entry => String.eqb (snd entry) code
  | Raise _ => false
  end.

(** ** A scripted site

    A stand-in for the browser in closed examples: the form always
    answers, and after [Refresh] the page shows the rows that [site]
    gives for the selected station id. *)

Inductive mock_element : Type :=
| MNamed (name : string)
| MXPath (xpath : string)
| MRow (cells : list string)
| MCell (txt : string).

Record mock_browser : Type := mkMock {
  selected : string;
  shown : list (list string)
}.

Definition mock_driver (site : string -> list (list string)) : WebDriver :=
  {| browser := mock_browser;
     element := mock_element;
     Chrome := Ok (mkMock "" []);
     get := fun _ b => (Ok tt, b);
     implicitly_wait := fun _ b => (Ok tt, b);
     find_element_by_name := fun name b => (Ok (MNamed name), b);
     find_element_by_xpath := fun x b => (Ok (MXPath x), b);
     find_elements_by_xpath := fun _ b => (Ok (map MRow (shown b)), b);
     elem_find_elements_by_xpath := fun e _ b =>
       match e with
       | MRow cells => (Ok (map MCell cells), b)
       | _ => (Ok [], b)
       end;
     text := fun e b =>
       match e with
       | MCell txt => (Ok txt, b)
       | _ => (Ok "", b)
       end;
     click := fun e b =>
       match e with
       | MXPath x =>
           if String.eqb x sub_xpath then (Ok tt, mkMock (selected b) (site (selected b)))
           else (Ok tt, b)
       | _ => (Ok tt, b)
       end;
     Select_init := fun e b => (Ok e, b);
     select_by_value := fun _ v b => (Ok tt, mkMock v (shown b));
     close := fun b => (Ok tt, b) |}.

(** A [dateutil] that rejects every text. *)
Definition no_dateutil (s : string) : result Timestamp :=
  Raise (External "ParserError").

(** The rest of [pd.to_datetime] in a pandas that keeps nanoseconds
    (every version before 3): a day of the calendar outside the range
    raises [OutOfBoundsDatetime]; other texts are rejected here. *)
Definition nanosecond_bounds (s : string) : result Timestamp :=
  match parse_iso s with
  | Some t =>
      if valid_date t then Raise OutOfBoundsDatetime
      else Raise (External "ParserError")
  | None => Raise (External "ParserError")
  end.

(** The rest of [pd.to_datetime] in a pandas that takes a coarser unit
    for a day outside the range of nanoseconds. *)
Definition coarser_unit (s : string) : result Timestamp :=
  match parse_iso s with
  | Some t =>
      if valid_date t then Ok t else Raise (External "ParserError")
  | None => Raise (External "ParserError")
  end.

Definition row_1991 : list string :=
  [ "1991"; "1.0"; "2.0"; "3.0"; "4.0"; "5.0"; "6.0"; "7.0"; "8.0"; "9.0";
    "10.0"; "11.0"; "12.0"; "6.5" ].

Definition header_row : list string :=
  [ "Year"; "Jan"; "Feb"; "Mar"; "Apr"; "May"; "Jun"; "Jul"; "Aug"; "Sep";
    "Oct"; "Nov"; "Dec"; "Annual" ].

(** Every station shows the header and the year 1991. *)
Definition site_1991 (id : string) : list (list string) :=
  [ header_row; row_1991 ].

(** The year 1991 lacks its last months. *)
Definition site_short (id : string) : list (list string) :=
  [ header_row; [ "1991"; "1.0"; "2.0"; "3.0"; "6.5" ] ].

(** The world in which a run on [site_short] stops: the first station
    is selected and its page is shown. *)
Definition short_stop : World (mock_driver site_short) :=
  mkWorld (mock_driver site_short) station_dict [] []
          (Some (mkMock "47401" (site_short "47401"))) [].


(** The pattern after its first character. *)
Definition revision_tail : regex :=
  [Lit "Revision: "; Plus is_digit; Plus is_dot; Lit "-"].

(** ** Relations between the world before and after a computation *)

Section Relations.

Variable drv : WebDriver.

Definition same_temp (w w' : World drv) : Prop :=
  data_temp w' = data_temp w.

Definition same_wind (w w' : World drv) : Prop :=
  data_wind w' = data_wind w.

Definition same_files (w w' : World drv) : Prop :=
  files w' = files w.

(** Both data sets grew at their end only. *)
Definition extends (w w' : World drv) : Prop :=
  (exists added, data_temp w' = data_temp w ++ added)
  /\ (exists added, data_wind w' = data_wind w ++ added).

(** Every record sits in the data set of the channel its station is
    configured with. *)
Definition partitioned (w : World drv) : Prop :=
  (forall r, In r (data_temp w) -> configured_with "1" (Station r) = true)
  /\ (forall r, In r (data_wind w) -> configured_with "4" (Station r) = true).

Definition keeps_partition (w w' : World drv) : Prop :=
  partitioned w -> partitioned w'.

(** [c] relates every world to the world it stops in. *)
Definition preserves (R : World drv -> World drv -> Prop) {A} (c : M drv A)
  : Prop :=
  forall w, R w (snd (c w)).



End Relations.

(** ** Pages, rows and files in the statements *)

(** Reading the file at [path]; [None] when there is no such file. *)
Fixpoint file_get (path : string) (fs : list (string * list observation))
  : option (list observation) :=
  match fs with
  | [] => None
  | (p, df) :: fs' => if String.eqb p path then Some df else file_get path fs'
  end.

(** A row that [load_data] takes without raising: the header, or a
    well-formed year followed by thirteen more cells. *)
Definition well_formed_row (row : list string) : bool :=
  match row with
  | [] => false
  | year :: _ =>
      String.eqb year "Year"
      || (well_formed_year year && (length row =? 14))
  end.

(** The records such a row stands for. *)
Definition row_records (station : string) (row : list string)
  : list observation :=
  match row with
  | [] => []
  | year :: _ =>
      if String.eqb year "Year" then []
      else zip_rows station (map sanitize (interior row))
                    (map (String.append year) month_suffixes)
  end.

Section Pages.

Variable drv : WebDriver.

(** The world [w] with [recs] added at the end of the data set that
    the channel code [data_type] selects. *)
Definition with_records (data_type : string) (recs : list observation)
           (w : World drv) : World drv :=
  if String.eqb data_type "1" then
    mkWorld drv (self_station_dict w) (data_temp w ++ recs) (data_wind w)
            (driver w) (files w)
  else if String.eqb data_type "4" then
    mkWorld drv (self_station_dict w) (data_temp w) (data_wind w ++ recs)
            (driver w) (files w)
  else w.

(** In the state [b] the browser shows a table whose rows have the
    cell texts [rows], and reading the table does not change [b]. *)
Definition static_page (b : browser drv) (rows : list (list string)) : Prop :=
  exists tabs,
    find_elements_by_xpath drv table_xpath b = (Ok tabs, b)
    /\ Forall2
         (fun tab row =>
            exists cells,
              elem_find_elements_by_xpath drv tab elem_xpath b = (Ok cells, b)
              /\ Forall2 (fun c txt => text drv c b = (Ok txt, b)) cells row)
         tabs rows.

(** The number of records of either data set stays a multiple of
    twelve. *)
Definition keeps_dozens (w w' : World drv) : Prop :=
  (Nat.divide 12 (length (data_temp w)) ->
   Nat.divide 12 (length (data_temp w')))
  /\ (Nat.divide 12 (length (data_wind w)) ->
      Nat.divide 12 (length (data_wind w'))).

End Pages.

(** The scripted site with a browser that fails to close. *)
Definition mock_driver_no_close (site : string -> list (list string))
  : WebDriver :=
  let d := mock_driver site in
  {| browser := browser d;
     element := element d;
     Chrome := Chrome d;
     get := get d;
     implicitly_wait := implicitly_wait d;
     find_element_by_name := find_element_by_name d;
     find_element_by_xpath := find_element_by_xpath d;
     find_elements_by_xpath := find_elements_by_xpath d;
     elem_find_elements_by_xpath := elem_find_elements_by_xpath d;
     text := text d;
     click := click d;
     Select_init := Select_init d;
     select_by_value := select_by_value d;
     close := fun b => (Raise (External "WebDriverException"), b) |}.

(** The year 1992, with an annotated value. *)
Definition row_1992 : list string :=
  [ "1992"; "-1.0"; "-2.0"; ("3.0" ++ String newline "Revision: 1.-")%string;
    "4.0"; "5.0"; "6.0"; "7.0"; "8.0"; "9.0"; "10.0"; "11.0"; "12.0"; "5.2" ].

(** The world after WAKKANAI alone was scraped from [site_1991] with
    the browser in the state [b]. *)
Definition wakkanai_scraped (d : WebDriver) (b : browser d) : World d :=
  mkWorld d [("WAKKANAI", ("47401", "1"))]%string
          (row_records "WAKKANAI" row_1991) [] (Some b) [].

(** A row of the year 1500. *)
Definition row_1500 : list string := "1500"%string :: tl row_1991.

(** A site on which the page depends on the station that was
    selected: the year 1991 for the id of WAKKANAI, the year 1992 for
    the id of OMU, and no table for any other id. *)
Definition site_by_id (id : string) : list (list string) :=
  if String.eqb id "47401" then [ header_row; row_1991 ]
  else if String.eqb id "47405" then [ header_row; row_1992 ]
  else [].

(** [s] is what is left of [t] after deleting some of its characters. *)
Fixpoint subseq (s t : string) : bool :=
  match t with
  | EmptyString =>
      match s with
      | EmptyString => true
      | String _ _ => false
      end
  | String c t' =>
      match s with
      | EmptyString => true
      | String a s' => (Ascii.eqb a c && subseq s' t') || subseq s t'
      end
  end.

(** * Properties *)

Unset Implicit Arguments.

(** ** Sanitization *)

Lemma sub_from_skip_all p repl (s : string) :
  forall k, String.length s <= k -> sub_from p repl k s = "".
Proof.
  induction s as [|c s IH]; intros k Hk; simpl in *.
  - reflexivity.
  - destruct k as [|k]; [lia|]. apply IH. lia.
Qed.

Lemma strip_prefix_app (x : ascii) (l : string) :
  occurs x l = false ->
  forall v a,
    strip_prefix l (v ++ String x a)
    = option_map (fun r => (r ++ String x a)%string) (strip_prefix l v).
Proof.
  induction l as [|c l IH]; intros Hx v a; simpl in *.
  - reflexivity.
  - apply orb_false_iff in Hx. destruct Hx as [Hc Hl].
    destruct v as [|d v]; simpl.
    + rewrite Ascii.eqb_sym, Hc. reflexivity.
    + destruct (Ascii.eqb c d); [apply IH; assumption | reflexivity].
Qed.

Lemma match_plus_app (x : ascii) cls (k : string -> option string) a :
  cls x = false ->
  (forall v, k (v ++ String x a)%string
             = option_map (fun r => (r ++ String x a)%string) (k v)) ->
  forall v,
    match_plus cls k (v ++ String x a)
    = option_map (fun r => (r ++ String x a)%string) (match_plus cls k v).
Proof.
  intros Hx Hk. induction v as [|c v IH]; simpl.
  - rewrite Hx. reflexivity.
  - destruct (cls c); [|reflexivity].
    rewrite IH. destruct (match_plus cls k v); simpl; [reflexivity | apply Hk].
Qed.

(** A match never reaches into a text that starts with a character
    the pattern cannot consume. *)
Lemma match_here_app (x : ascii) (p : regex) a :
  rejects x p = true ->
  forall v,
    match_here p (v ++ String x a)
    = option_map (fun r => (r ++ String x a)%string) (match_here p v).
Proof.
  induction p as [|[l|cls] p IH]; intros Hr v; simpl in *.
  - reflexivity.
  - apply andb_true_iff in Hr. destruct Hr as [Hl Hp].
    apply negb_true_iff in Hl.
    rewrite strip_prefix_app by assumption.
    destruct (strip_prefix l v); simpl; [apply IH; assumption | reflexivity].
  - apply andb_true_iff in Hr. destruct Hr as [Hc Hp].
    apply negb_true_iff in Hc.
    apply match_plus_app; [assumption | apply IH; assumption].
Qed.

Lemma match_revision_head (c : ascii) (s : string) :
  match_here revision_re (String c s)
  = if Ascii.eqb newline c then match_here revision_tail s else None.
Proof.
  unfold revision_re, revision_prefix. cbn [match_here strip_prefix].
  destruct (Ascii.eqb newline c); reflexivity.
Qed.

Lemma match_revision_app (c : ascii) (v a : string) :
  match_here revision_re (String c v ++ String newline a)
  = option_map (fun r => (r ++ String newline a)%string)
               (match_here revision_re (String c v)).
Proof.
  change (String c v ++ String newline a)%string
    with (String c (v ++ String newline a)).
  rewrite !match_revision_head.
  destruct (Ascii.eqb newline c); [|reflexivity].
  apply match_here_app. reflexivity.
Qed.

Lemma re_search_cons p (c : ascii) (s : string) :
  re_search p (String c s) = false ->
  match_here p (String c s) = None /\ re_search p s = false.
Proof.
  simpl. destruct (match_here p (String c s)); [discriminate | auto].
Qed.

Lemma sub_from_no_match p repl (c : ascii) (s : string) :
  match_here p (String c s) = None ->
  sub_from p repl 0 (String c s) = String c (sub_from p repl 0 s).
Proof. intros H. cbn [sub_from]. rewrite H. reflexivity. Qed.

Lemma sub_from_whole_match p (c : ascii) (s : string) :
  match_here p (String c s) = Some "" ->
  sub_from p "" 0 (String c s) = "".
Proof.
  intros H. cbn [sub_from]. rewrite H.
  cbn [String.length Nat.sub String.append].
  apply sub_from_skip_all. lia.
Qed.

(** Text without any match is returned as it is. *)
Lemma sanitize_clean (s : string) :
  has_revision s = false -> sanitize s = s.
Proof.
  unfold has_revision, sanitize, re_sub.
  induction s as [|c s IH]; intros H.
  - reflexivity.
  - apply re_search_cons in H. destruct H as [Hm Hs].
    rewrite sub_from_no_match by assumption.
    now rewrite IH.
Qed.

Lemma run_of_cons cls (s : string) :
  run_of cls s = true ->
  exists c s', s = String c s' /\ cls c = true
               /\ (s' = "" \/ run_of cls s' = true).
Proof.
  unfold run_of. destruct s as [|c s']; simpl; [discriminate|].
  intros H. apply andb_true_iff in H. destruct H as [Hc Hs].
  exists c, s'. repeat split; try assumption.
  destruct s' as [|d s'']; [now left | right]. exact Hs.
Qed.

(** A greedy repetition eats a whole run when the text after the run
    starts with a character outside the class. *)
Lemma match_plus_run cls (k : string -> option string) (s r : string) :
  match_plus cls k s = None ->
  k s = Some r ->
  forall ds, all_chars cls ds = true -> ds <> "" ->
             match_plus cls k (ds ++ s) = Some r.
Proof.
  intros Hs Hk. induction ds as [|c ds IH]; intros Hall Hne.
  - congruence.
  - simpl in *. apply andb_true_iff in Hall. destruct Hall as [Hc Hds].
    rewrite Hc. destruct ds as [|d ds'].
    + simpl. rewrite Hs. exact Hk.
    + rewrite IH; [reflexivity | assumption | discriminate].
Qed.

Lemma run_of_all cls (s : string) :
  run_of cls s = true -> all_chars cls s = true /\ s <> "".
Proof.
  unfold run_of. intros H. apply andb_true_iff in H. destruct H as [Hn Ha].
  split; [assumption|]. intros ->. discriminate.
Qed.

Lemma match_annotation (ds dots : string) :
  run_of is_digit ds = true ->
  run_of is_dot dots = true ->
  match_here revision_re (revision_prefix ++ ds ++ dots ++ "-") = Some "".
Proof.
  intros Hds Hdots.
  apply run_of_all in Hds. destruct Hds as [Hds Hne].
  destruct (run_of_cons _ _ Hdots) as (c & dots' & -> & Hc & _).
  apply run_of_all in Hdots. destruct Hdots as [Hdots Hne'].
  change (match_here revision_re (revision_prefix ++ ds ++ String c dots' ++ "-"))
    with (match_plus is_digit (match_here [Plus is_dot; Lit "-"])
                     (ds ++ String c dots' ++ "-")).
  apply match_plus_run; try assumption.
  - unfold is_dot in Hc. apply Ascii.eqb_eq in Hc. subst c. reflexivity.
  - change (match_here [Plus is_dot; Lit "-"] (String c dots' ++ "-"))
      with (match_plus is_dot (match_here [Lit "-"]) (String c dots' ++ "-")).
    apply match_plus_run; try assumption; reflexivity.
Qed.

Lemma sanitize_annotated (v ds dots : string) :
  has_revision v = false ->
  run_of is_digit ds = true ->
  run_of is_dot dots = true ->
  sanitize (v ++ revision_prefix ++ ds ++ dots ++ "-") = v.
Proof.
  intros Hv Hds Hdots.
  pose proof (match_annotation _ _ Hds Hdots) as Hm.
  unfold has_revision, sanitize, re_sub in *.
  induction v as [|c v IH].
  - apply sub_from_whole_match. exact Hm.
  - apply re_search_cons in Hv. destruct Hv as [Hc Hv].
    change (String c v ++ revision_prefix ++ ds ++ dots ++ "-")%string
      with (String c v ++ String newline ("Revision: " ++ ds ++ dots ++ "-"))%string.
    assert (Hn : match_here revision_re
                   (String c v ++ String newline ("Revision: " ++ ds ++ dots ++ "-"))
                 = None)
      by (rewrite match_revision_app, Hc; reflexivity).
    change (String c v ++ String newline ("Revision: " ++ ds ++ dots ++ "-"))%string
      with (String c (v ++ String newline ("Revision: " ++ ds ++ dots ++ "-")))
      in *.
    rewrite sub_from_no_match by exact Hn.
    f_equal. apply IH. exact Hv.
Qed.

(** Claim C2, as the code has it: an annotation made of a newline,
    [Revision: ], a run of digits of any length, a run of dots and a
    dash is removed from the end of a value that holds no annotation
    of its own; ["5.3\nRevision: 12.-"] and ["5.3\nRevision: 999.-"]
    become ["5.3"], ["5.3\nRevision: 999-"], where no dot stands
    before the dash, is returned as it is, and so is ["5.3"]. *)
Theorem sanitize_strips_digits_dots_dash :
  (forall v ds dots : string,
      has_revision v = false ->
      run_of is_digit ds = true ->
      run_of is_dot dots = true ->
      sanitize (v ++ revision_prefix ++ ds ++ dots ++ "-") = v)
  /\ sanitize ("5.3" ++ String newline "Revision: 12.-") = "5.3"
  /\ sanitize ("5.3" ++ String newline "Revision: 999.-") = "5.3"
  /\ sanitize ("5.3" ++ String newline "Revision: 999-")
     = ("5.3" ++ String newline "Revision: 999-")%string
  /\ sanitize "5.3" = "5.3".
Proof.
  split; [exact sanitize_annotated|].
  repeat split; reflexivity.
Qed.

Lemma sanitize_strips_digits_dots_dash_witness :
  sanitize ("5.3" ++ revision_prefix ++ "1938" ++ "..." ++ "-") = "5.3".
Proof.
  apply (proj1 sanitize_strips_digits_dots_dash "5.3" "1938" "...");
    reflexivity.
Defined.

(** Claim C2 as the specification words it fails: a run of digits that is
    followed by the dash alone is not an annotation for the code. *)
Lemma sanitize_keeps_digits_dash :
  sanitize ("5.3" ++ String newline "Revision: 999-") <> "5.3".
Proof. vm_compute. discriminate. Qed.

(** Claim C6: a text in which the pattern matches nowhere is returned
    unchanged, so that a second pass gives what the first gave. *)
Theorem sanitize_idempotent_on_clean (s : string) :
  has_revision s = false ->
  sanitize s = s /\ sanitize (sanitize s) = sanitize s.
Proof.
  intros H. pose proof (sanitize_clean s H) as E.
  split; [exact E|]. now rewrite !E.
Qed.

Lemma sanitize_idempotent_on_clean_witness :
  has_revision "-12.5" = false
  /\ sanitize "-12.5" = "-12.5"
  /\ sanitize (sanitize "-12.5") = sanitize "-12.5".
Proof.
  split; [reflexivity|].
  apply (sanitize_idempotent_on_clean "-12.5"). reflexivity.
Defined.

(** Outside clean text a second pass can strip more: removing one
    annotation may join the pieces of another. *)
Example sanitize_not_idempotent :
  let s := (String newline "Revision: 1" ++ String newline "Revision: 2.-" ++ ".-")%string in
  sanitize (sanitize s) <> sanitize s.
Proof. vm_compute. discriminate. Qed.

(** ** Dates *)

Lemma mapR_ext_Ok {A B} (f : A -> result B) (g : A -> B) (l : list A) :
  (forall x, In x l -> f x = Ok (g x)) -> mapR f l = Ok (map g l).
Proof.
  induction l as [|x l IH]; intros H; simpl.
  - reflexivity.
  - rewrite (H x (or_introl eq_refl)). simpl.
    rewrite IH by (intros y Hy; apply H; now right). reflexivity.
Qed.

Lemma mapR_length {A B} (f : A -> result B) (l : list A) (l' : list B) :
  mapR f l = Ok l' -> length l' = length l.
Proof.
  revert l'. induction l as [|x l IH]; intros l' H; simpl in H.
  - injection H as <-. reflexivity.
  - destruct (f x) as [y|e]; simpl in H; [|discriminate].
    destruct (mapR f l) as [ys|e]; simpl in H; [|discriminate].
    injection H as <-. simpl. now rewrite (IH ys eq_refl).
Qed.

Lemma is_digit_val (c : ascii) :
  is_digit c = true -> digit_val c < 10 /\ digit_char (digit_val c) = c.
Proof.
  unfold is_digit, digit_val, digit_char. intros H.
  apply andb_true_iff in H. destruct H as [H1 H2].
  apply Nat.leb_le in H1. apply Nat.leb_le in H2.
  split; [lia|].
  replace (48 + (nat_of_ascii c - 48)) with (nat_of_ascii c) by lia.
  apply ascii_nat_embedding.
Qed.

Lemma decimal_digits (a b c d : nat) :
  a < 10 -> b < 10 -> c < 10 -> d < 10 ->
  let n := 1000 * a + 100 * b + 10 * c + d in
  n / 1000 mod 10 = a /\ n / 100 mod 10 = b
  /\ n / 10 mod 10 = c /\ n mod 10 = d.
Proof.
  intros Ha Hb Hc Hd n. subst n.
  assert (E1 : (1000 * a + 100 * b + 10 * c + d) / 1000 = a)
    by (symmetry; apply Nat.div_unique with (r := 100 * b + 10 * c + d); lia).
  assert (E2 : (1000 * a + 100 * b + 10 * c + d) / 100 = 10 * a + b)
    by (symmetry; apply Nat.div_unique with (r := 10 * c + d); lia).
  assert (E3 : (1000 * a + 100 * b + 10 * c + d) / 10 = 100 * a + 10 * b + c)
    by (symmetry; apply Nat.div_unique with (r := d); lia).
  rewrite E1, E2, E3. repeat split.
  - apply Nat.mod_small; lia.
  - symmetry; apply Nat.mod_unique with (q := a); lia.
  - symmetry; apply Nat.mod_unique with (q := 10 * a + b); lia.
  - symmetry; apply Nat.mod_unique with (q := 100 * a + 10 * b + c); lia.
Qed.

Lemma year_value_inv (y : string) (n : nat) :
  year_value y = Some n ->
  exists a b c d,
    y = String a (String b (String c (String d "")))
    /\ is_digit a = true /\ is_digit b = true
    /\ is_digit c = true /\ is_digit d = true
    /\ n = 1000 * digit_val a + 100 * digit_val b
           + 10 * digit_val c + digit_val d.
Proof.
  unfold year_value.
  destruct y as [|a [|b [|c [|d [|? ?]]]]]; try discriminate.
  destruct (is_digit a) eqn:Ha; [|discriminate].
  destruct (is_digit b) eqn:Hb; [|discriminate].
  destruct (is_digit c) eqn:Hc; [|discriminate].
  destruct (is_digit d) eqn:Hd; [|discriminate].
  cbn [andb]. intros H. injection H as <-.
  exists a, b, c, d. repeat split; assumption || reflexivity.
Qed.

(** [%Y] prints a four-digit year the way it was read. *)
Lemma pad4_year_value (y : string) (n : nat) :
  year_value y = Some n -> pad4 n = y.
Proof.
  intros H. destruct (year_value_inv _ _ H)
    as (a & b & c & d & -> & Ha & Hb & Hc & Hd & ->).
  apply is_digit_val in Ha, Hb, Hc, Hd.
  destruct Ha as [Ha Ea], Hb as [Hb Eb], Hc as [Hc Ec], Hd as [Hd Ed].
  destruct (decimal_digits _ _ _ _ Ha Hb Hc Hd) as (E1 & E2 & E3 & E4).
  unfold pad4, pad2. rewrite E1, E2, E3, E4, Ea, Eb, Ec, Ed. reflexivity.
Qed.

Lemma read_month (m : nat) :
  In m months ->
  read_digits_1_2 (str m ++ "-1") = Some (m, "-1"%string).
Proof.
  unfold months. cbn [seq In]. intros H.
  repeat (destruct H as [<-|H]; [reflexivity|]). contradiction.
Qed.

Lemma parse_iso_year_month (y : string) (n m : nat) :
  year_value y = Some n -> In m months ->
  parse_iso (y ++ "-" ++ str m ++ "-1") = Some (mkTimestamp n m 1).
Proof.
  intros H Hm. destruct (year_value_inv _ _ H)
    as (a & b & c & d & -> & Ha & Hb & Hc & Hd & ->).
  change (String a (String b (String c (String d ""))) ++ "-" ++ str m ++ "-1")%string
    with (String a (String b (String c (String d (String "-" (str m ++ "-1")))))).
  unfold parse_iso. rewrite Ha, Hb, Hc, Hd. cbn [andb].
  rewrite Ascii.eqb_refl, (read_month _ Hm), Ascii.eqb_refl.
  reflexivity.
Qed.

Lemma valid_first_of_month (n m : nat) :
  In m months -> valid_date (mkTimestamp n m 1) = true.
Proof.
  unfold months. cbn [seq In]. intros H.
  unfold valid_date, days_in_month. cbn [ts_year ts_month ts_day].
  repeat (destruct H as [<-|H];
          [try destruct (is_leap n); reflexivity|]).
  contradiction.
Qed.

Lemma in_bounds_first_of_month (n m : nat) :
  1678 <= n <= 2261 -> in_bounds (mkTimestamp n m 1) = true.
Proof.
  intros [Hlo Hhi].
  unfold in_bounds, date_leb, Timestamp_min, Timestamp_max.
  cbn [ts_year ts_month ts_day].
  rewrite (proj2 (Nat.ltb_lt 1677 n)) by lia.
  rewrite (proj2 (Nat.ltb_lt n 2262)) by lia.
  reflexivity.
Qed.

Lemma well_formed_year_inv (y : string) :
  well_formed_year y = true ->
  exists n, year_value y = Some n /\ 1678 <= n <= 2261.
Proof.
  unfold well_formed_year. destruct (year_value y) as [n|]; [|discriminate].
  intros H. apply andb_true_iff in H. destruct H as [H1 H2].
  apply Nat.leb_le in H1. apply Nat.leb_le in H2. eauto.
Qed.

(** The twelve time stamps of a well-formed year. *)
Lemma dates_well_formed dateutil (y : string) :
  well_formed_year y = true ->
  dates dateutil y = Ok (map (String.append y) month_suffixes).
Proof.
  intros H. destruct (well_formed_year_inv _ H) as (n & Hn & Hb).
  unfold dates.
  rewrite mapR_ext_Ok
    with (g := fun m => (y ++ "-" ++ pad2 m ++ "-01")%string).
  - reflexivity.
  - intros m Hm. unfold to_datetime.
    rewrite (parse_iso_year_month _ _ _ Hn Hm), (valid_first_of_month n _ Hm),
      (in_bounds_first_of_month _ m Hb).
    cbn [rbind]. unfold strftime. cbn [ts_year ts_month ts_day].
    rewrite (pad4_year_value _ _ Hn). reflexivity.
Qed.

(** ** One table row *)

Lemma length_removelast {A} (l : list A) :
  length (removelast l) = length l - 1.
Proof.
  induction l as [|x l IH]; [reflexivity|].
  destruct l as [|y l]; [reflexivity|].
  change (removelast (x :: y :: l)) with (x :: removelast (y :: l)).
  cbn [length] in *. lia.
Qed.

Lemma length_interior (data : list string) :
  length (interior data) = length data - 2.
Proof.
  unfold interior. rewrite length_removelast.
  destruct data; cbn [tl length]; lia.
Qed.

Lemma well_formed_year_not_header (y : string) :
  well_formed_year y = true -> String.eqb y "Year" = false.
Proof.
  intros H. destruct (String.eqb_spec y "Year") as [->|]; [|reflexivity].
  discriminate H.
Qed.

Section Row.

Variable drv : WebDriver.
Variable dateutil : string -> result Timestamp.


Lemma dates_length (year : string) (ds : list string) :
  dates dateutil year = Ok ds -> length ds = 12.
Proof. intros H. apply mapR_length in H. exact H. Qed.

(** A row that does not have fourteen cells never becomes a frame. *)
Lemma data_insert_wrong_length (station : string) (data : list string) :
  length data <> 14 ->
  exists e, data_insert dateutil station data = Raise e.
Proof.
  intros Hlen. unfold data_insert.
  destruct (dates dateutil (hd "" data)) as [ds|e] eqn:Hd;
    [|exists e; reflexivity].
  apply dates_length in Hd. cbn [rbind].
  pose proof (length_interior data) as Hi.
  destruct (interior data) as [|c rest] eqn:Hint.
  - destruct ds as [|d ds]; [discriminate Hd|].
    cbn [map set_Time rbind]. rewrite Hd.
    exists TypeError. reflexivity.
  - cbn [map set_Time].
    match goal with
    | |- context [if ?b then _ else _] => assert (Hne : b = false)
    end.
    { apply Nat.eqb_neq. cbn [length] in *. rewrite length_map, Hd. lia. }
    rewrite Hne.
    exists ValueError. reflexivity.
Qed.

Lemma load_row_raise (station data_type year : string)
      (rest : list string) (e : exn) (w : World drv) :
  String.eqb year "Year" = false ->
  data_insert dateutil station (year :: rest) = Raise e ->
  load_row dateutil station data_type (year :: rest) w = (Raise e, w).
Proof.
  intros Hy He. unfold load_row, bind, lift. rewrite Hy, He. reflexivity.
Qed.

Lemma load_row_temp (station year : string) (rest : list string)
      (ins : list observation) (w : World drv) :
  String.eqb year "Year" = false ->
  data_insert dateutil station (year :: rest) = Ok ins ->
  load_row dateutil station "1" (year :: rest) w
  = set_data_temp (data_temp w ++ ins) w.
Proof.
  intros Hy He. unfold load_row, bind, lift. rewrite Hy, He. reflexivity.
Qed.

Lemma load_row_wind (station year : string) (rest : list string)
      (ins : list observation) (w : World drv) :
  String.eqb year "Year" = false ->
  data_insert dateutil station (year :: rest) = Ok ins ->
  load_row dateutil station "4" (year :: rest) w
  = set_data_wind (data_wind w ++ ins) w.
Proof.
  intros Hy He. unfold load_row, bind, lift. rewrite Hy, He. reflexivity.
Qed.

Lemma load_row_other (station data_type : string) (data : list string)
      (w : World drv) :
  String.eqb data_type "1" = false ->
  String.eqb data_type "4" = false ->
  load_row dateutil station data_type data w
  = (match data with
     | [] => Raise IndexError
     | year :: _ =>
         if String.eqb year "Year" then Ok tt
         else rbind (data_insert dateutil station data) (fun _ => Ok tt)
     end, w).
Proof.
  intros H1 H4. unfold load_row, bind, lift, raise, ret.
  destruct data as [|year rest]; [reflexivity|].
  destruct (String.eqb year "Year"); cbn [negb]; [reflexivity|].
  destruct (data_insert dateutil station (year :: rest)); [|reflexivity].
  rewrite H1, H4. reflexivity.
Qed.


(** Claim C4: the header row adds no record and changes nothing. *)
Theorem load_row_header_skipped (station data_type : string)
        (rest : list string) (w : World drv) :
  let out := load_row dateutil station data_type ("Year" :: rest) w in
  fst out = Ok tt
  /\ snd out = w
  /\ data_temp (snd out) = data_temp w
  /\ data_wind (snd out) = data_wind w.
Proof. repeat split; reflexivity. Qed.

(** Claim C9: a row that is not the header and does not have exactly
    fourteen cells makes [load_data] raise; no record of it, short or
    padded, reaches a data set. *)
Theorem load_row_wrong_length_raises (station data_type : string)
        (data : list string) (w : World drv) :
  hd_error data <> Some "Year"%string ->
  length data <> 14 ->
  exists e, load_row dateutil station data_type data w = (Raise e, w).
Proof.
  intros Hh Hlen. destruct data as [|year rest].
  - exists IndexError. reflexivity.
  - destruct (data_insert_wrong_length station (year :: rest) Hlen) as [e He].
    exists e. apply load_row_raise; [|exact He].
    destruct (String.eqb_spec year "Year") as [->|]; [|reflexivity].
    now contradiction Hh.
Qed.

(** Claim C10: with a channel code that is neither ['1'] nor ['4'] a row
    never changes a data set, and a row whose frame was built is
    dropped without any error. *)
Theorem load_row_other_channel_discards (station data_type : string)
        (data : list string) (w : World drv) :
  data_type <> "1"%string ->
  data_type <> "4"%string ->
  snd (load_row dateutil station data_type data w) = w
  /\ forall ins,
      data_insert dateutil station data = Ok ins ->
      load_row dateutil station data_type data w = (Ok tt, w).
Proof.
  intros H1 H4.
  apply String.eqb_neq in H1. apply String.eqb_neq in H4.
  rewrite (load_row_other station data_type data w H1 H4).
  split; [reflexivity|]. intros ins E.
  destruct data as [|year rest].
  - exfalso. unfold data_insert in E. cbn [hd interior tl removelast map] in E.
    destruct (dates dateutil "") as [ds|e] eqn:Hd; [|discriminate E].
    apply dates_length in Hd.
    destruct ds as [|d ds]; [discriminate Hd|].
    cbn [rbind set_Time] in E. rewrite Hd in E. discriminate E.
  - rewrite E. destruct (String.eqb year "Year"); reflexivity.
Qed.

End Row.

(** ** Relations kept by the whole run *)

Section Preservation.

Variable drv : WebDriver.
Variable dateutil : string -> result Timestamp.
Variable R : World drv -> World drv -> Prop.

Hypothesis R_refl : forall w, R w w.
Hypothesis R_trans : forall w1 w2 w3, R w1 w2 -> R w2 w3 -> R w1 w3.
Hypothesis R_driver :
  forall w b,
    R w (mkWorld drv (self_station_dict w) (data_temp w) (data_wind w)
                 b (files w)).

Lemma preserves_ret {A} (a : A) : preserves R (ret (drv := drv) a).
Proof. intros w. apply R_refl. Qed.

Lemma preserves_bind {A B} (c : M drv A) (k : A -> M drv B) :
  preserves R c -> (forall a, preserves R (k a)) -> preserves R (bind c k).
Proof.
  intros Hc Hk w. unfold bind. specialize (Hc w).
  destruct (c w) as [[a|e] w']; cbn [snd] in *.
  - eapply R_trans; [exact Hc | apply Hk].
  - exact Hc.
Qed.

Lemma preserves_bind_lift {A B} (r : result A) (k : A -> M drv B) :
  (forall a, r = Ok a -> preserves R (k a)) ->
  preserves R (bind (lift r) k).
Proof.
  intros Hk w. unfold bind, lift. destruct r as [a|e]; cbn [snd].
  - apply (Hk a eq_refl).
  - apply R_refl.
Qed.

Lemma preserves_for_each {A} (l : list A) (body : A -> M drv unit) :
  (forall x, preserves R (body x)) -> preserves R (for_each l body).
Proof.
  intros Hb. induction l as [|x l IH]; cbn [for_each].
  - apply preserves_ret.
  - apply preserves_bind; [apply Hb | intros _; exact IH].
Qed.

Lemma preserves_mapM {A B} (f : A -> M drv B) (l : list A) :
  (forall x, preserves R (f x)) -> preserves R (mapM f l).
Proof.
  intros Hf. induction l as [|x l IH]; cbn [mapM].
  - apply preserves_ret.
  - apply preserves_bind; [apply Hf | intros y].
    apply preserves_bind; [exact IH | intros ys; apply preserves_ret].
Qed.

Lemma preserves_on_driver {A}
      (op : browser drv -> result A * browser drv) :
  preserves R (on_driver op).
Proof.
  intros w. unfold on_driver. destruct (driver w) as [b|].
  - destruct (op b) as [r b']. apply R_driver.
  - apply R_refl.
Qed.

Lemma preserves_set_webdriver : preserves R (set_webdriver (drv := drv)).
Proof.
  intros w. unfold set_webdriver. destruct (Chrome drv) as [b|e].
  - apply R_driver.
  - apply R_refl.
Qed.

Lemma preserves_load_data (station data_type : string) :
  (forall data, preserves R (load_row dateutil station data_type data)) ->
  preserves R (load_data dateutil station data_type).
Proof.
  intros Hrow. unfold load_data.
  apply preserves_bind; [apply preserves_on_driver | intros tabs].
  apply preserves_for_each. intros tab.
  apply preserves_bind; [apply preserves_on_driver | intros cells].
  apply preserves_bind; [|intros data; apply Hrow].
  apply preserves_mapM. intros i. apply preserves_on_driver.
Qed.

Lemma preserves_get_station (station : string) :
  (forall entry data,
      dict_get station_dict station = Ok entry ->
      preserves R (load_row dateutil station (snd entry) data)) ->
  preserves R (get_station dateutil station).
Proof.
  intros Hrow. unfold get_station.
  apply preserves_bind; [apply preserves_on_driver | intros e].
  apply preserves_bind; [apply preserves_on_driver | intros sel].
  apply preserves_bind_lift. intros entry1 _.
  apply preserves_bind; [apply preserves_on_driver | intros _].
  apply preserves_bind_lift. intros entry2 _.
  apply preserves_bind; [apply preserves_on_driver | intros opt].
  apply preserves_bind; [apply preserves_on_driver | intros _].
  apply preserves_bind; [apply preserves_on_driver | intros btn].
  apply preserves_bind; [apply preserves_on_driver | intros _].
  apply preserves_bind; [apply preserves_on_driver | intros _].
  apply preserves_bind_lift. intros entry3 H3.
  apply preserves_bind; [|intros _; apply preserves_on_driver].
  apply preserves_load_data. intros data. apply Hrow. exact H3.
Qed.

Lemma preserves_get_data :
  (forall station entry data,
      dict_get station_dict station = Ok entry ->
      preserves R (load_row dateutil station (snd entry) data)) ->
  preserves R (get_data dateutil).
Proof.
  intros Hrow. unfold get_data.
  apply preserves_bind; [apply preserves_on_driver | intros _].
  apply preserves_bind; [apply preserves_on_driver | intros _].
  intros w. apply preserves_for_each. intros station.
  apply preserves_get_station. intros entry data. apply Hrow.
Qed.

Lemma preserves_pipeline :
  (forall station entry data,
      dict_get station_dict station = Ok entry ->
      preserves R (load_row dateutil station (snd entry) data)) ->
  (forall w fs,
      R w (mkWorld drv (self_station_dict w) (data_temp w) (data_wind w)
                   (driver w) fs)) ->
  preserves R (pipeline dateutil).
Proof.
  intros Hrow Hfs. unfold pipeline.
  apply preserves_bind; [apply preserves_set_webdriver | intros _].
  apply preserves_bind; [apply preserves_get_data; exact Hrow | intros _].
  apply preserves_bind; [apply preserves_on_driver | intros _].
  unfold write_data.
  apply preserves_bind; [|intros _]; intros w; apply Hfs.
Qed.

End Preservation.

(** ** The data sets during a run *)

Lemma zip_rows_station (station : string) (vs ts : list string) (r : observation) :
  In r (zip_rows station vs ts) -> Station r = station.
Proof.
  revert ts. induction vs as [|v vs IH]; intros [|t ts] H; cbn [zip_rows] in H;
    try contradiction.
  destruct H as [<-|H]; [reflexivity | eapply IH; exact H].
Qed.

Lemma data_insert_station dateutil (station : string) (data : list string)
      (ins : list observation) (r : observation) :
  data_insert dateutil station data = Ok ins -> In r ins -> Station r = station.
Proof.
  unfold data_insert.
  destruct (dates dateutil (hd "" data)) as [ds|]; [|discriminate].
  cbn [rbind].
  destruct (set_Time (map Some (interior data)) ds) as [[vc tc]|]; [|discriminate].
  cbn [rbind].
  destruct (apply_sanitize vc) as [vc'|]; [|discriminate].
  cbn [rbind]. intros H. injection H as <-. apply zip_rows_station.
Qed.

Lemma configured_once (station : string) :
  configured_with "1" station = true ->
  configured_with "4" station = true -> False.
Proof.
  unfold configured_with.
  destruct (dict_get station_dict station) as [entry|]; [|discriminate].
  intros H1 H4. apply String.eqb_eq in H1. apply String.eqb_eq in H4.
  congruence.
Qed.

Section Run.

Variable drv : WebDriver.
Variable dateutil : string -> result Timestamp.

(** What a row can do to the world. *)
Lemma load_row_cases (station data_type : string) (data : list string)
      (w : World drv) :
  snd (load_row dateutil station data_type data w) = w
  \/ exists ins,
      data_insert dateutil station data = Ok ins
      /\ ((data_type = "1"%string
           /\ snd (load_row dateutil station data_type data w)
              = mkWorld drv (self_station_dict w) (data_temp w ++ ins)
                        (data_wind w) (driver w) (files w))
          \/ (data_type = "4"%string
              /\ snd (load_row dateutil station data_type data w)
                 = mkWorld drv (self_station_dict w) (data_temp w)
                           (data_wind w ++ ins) (driver w) (files w))).
Proof.
  unfold load_row, bind, lift, raise, ret.
  destruct data as [|year rest]; [now left|].
  destruct (String.eqb year "Year"); cbn [negb]; [now left|].
  destruct (data_insert dateutil station (year :: rest)) as [ins|e];
    [|now left].
  destruct (String.eqb_spec data_type "1") as [->|].
  - right. exists ins. split; [reflexivity|]. left. now split.
  - destruct (String.eqb_spec data_type "4") as [->|]; [|now left].
    right. exists ins. split; [reflexivity|]. right. now split.
Qed.

Lemma load_row_same_files (station data_type : string) (data : list string) :
  preserves (same_files (drv := drv)) (load_row dateutil station data_type data).
Proof.
  intros w. unfold same_files.
  destruct (load_row_cases station data_type data w)
    as [->|(ins & _ & [[_ ->]|[_ ->]])]; reflexivity.
Qed.

Lemma load_row_same_wind (station : string) (data : list string) :
  preserves (same_wind (drv := drv)) (load_row dateutil station "1" data).
Proof.
  intros w. unfold same_wind.
  destruct (load_row_cases station "1" data w)
    as [->|(ins & _ & [[_ ->]|[H _]])]; try reflexivity; discriminate H.
Qed.

Lemma load_row_same_temp (station : string) (data : list string) :
  preserves (same_temp (drv := drv)) (load_row dateutil station "4" data).
Proof.
  intros w. unfold same_temp.
  destruct (load_row_cases station "4" data w)
    as [->|(ins & _ & [[H _]|[_ ->]])]; try reflexivity; discriminate H.
Qed.

Lemma extends_same (w w' : World drv) :
  data_temp w' = data_temp w -> data_wind w' = data_wind w -> extends w w'.
Proof.
  intros Ht Hw. split; exists []; rewrite app_nil_r; assumption.
Qed.

Lemma extends_refl (w : World drv) : extends w w.
Proof. now apply extends_same. Qed.

Lemma extends_trans (w1 w2 w3 : World drv) :
  extends w1 w2 -> extends w2 w3 -> extends w1 w3.
Proof.
  intros [[a1 Ha1] [b1 Hb1]] [[a2 Ha2] [b2 Hb2]]. split.
  - exists (a1 ++ a2). now rewrite Ha2, Ha1, app_assoc.
  - exists (b1 ++ b2). now rewrite Hb2, Hb1, app_assoc.
Qed.

Lemma load_row_extends (station data_type : string) (data : list string) :
  preserves (extends (drv := drv)) (load_row dateutil station data_type data).
Proof.
  intros w.
  destruct (load_row_cases station data_type data w)
    as [->|(ins & _ & [[_ ->]|[_ ->]])].
  - apply extends_refl.
  - split; cbn [data_temp data_wind];
      [exists ins; reflexivity | exists []; symmetry; apply app_nil_r].
  - split; cbn [data_temp data_wind];
      [exists []; symmetry; apply app_nil_r | exists ins; reflexivity].
Qed.

Lemma load_row_keeps_partition (station : string)
      (entry : string * string) (data : list string) :
  dict_get station_dict station = Ok entry ->
  preserves (keeps_partition (drv := drv))
            (load_row dateutil station (snd entry) data).
Proof.
  intros Hentry w [Ht Hw].
  assert (Hc : configured_with (snd entry) station = true)
    by (unfold configured_with; rewrite Hentry; apply String.eqb_refl).
  destruct (load_row_cases station (snd entry) data w)
    as [->|(ins & Hins & [[E ->]|[E ->]])].
  - now split.
  - split; cbn [data_temp data_wind]; [|exact Hw].
    intros r Hr. apply in_app_or in Hr. destruct Hr as [Hr|Hr]; [now apply Ht|].
    rewrite (data_insert_station _ _ _ _ _ Hins Hr), <- E. exact Hc.
  - split; cbn [data_temp data_wind]; [exact Ht|].
    intros r Hr. apply in_app_or in Hr. destruct Hr as [Hr|Hr]; [now apply Hw|].
    rewrite (data_insert_station _ _ _ _ _ Hins Hr), <- E. exact Hc.
Qed.

Lemma get_station_same_wind (station id : string) :
  dict_get station_dict station = Ok (id, "1"%string) ->
  preserves (same_wind (drv := drv)) (get_station dateutil station).
Proof.
  intros H. apply preserves_get_station; try (unfold same_wind; congruence).
  - reflexivity.
  - intros entry data E. rewrite H in E. injection E as <-.
    apply load_row_same_wind.
Qed.

Lemma get_station_same_temp (station id : string) :
  dict_get station_dict station = Ok (id, "4"%string) ->
  preserves (same_temp (drv := drv)) (get_station dateutil station).
Proof.
  intros H. apply preserves_get_station; try (unfold same_temp; congruence).
  - reflexivity.
  - intros entry data E. rewrite H in E. injection E as <-.
    apply load_row_same_temp.
Qed.

Lemma pipeline_keeps_partition :
  preserves (keeps_partition (drv := drv)) (pipeline dateutil).
Proof.
  apply preserves_pipeline; unfold keeps_partition; try tauto.
  intros station entry data H. now apply load_row_keeps_partition.
Qed.

Lemma get_data_extends : preserves (extends (drv := drv)) (get_data dateutil).
Proof.
  apply preserves_get_data.
  - apply extends_refl.
  - apply extends_trans.
  - intros w b. now apply extends_same.
  - intros station entry data _. apply load_row_extends.
Qed.

Lemma pipeline_extends : preserves (extends (drv := drv)) (pipeline dateutil).
Proof.
  apply preserves_pipeline.
  - apply extends_refl.
  - apply extends_trans.
  - intros w b. now apply extends_same.
  - intros station entry data _. apply load_row_extends.
  - intros w fs. now apply extends_same.
Qed.

Lemma get_data_same_files :
  preserves (same_files (drv := drv)) (get_data dateutil).
Proof.
  apply preserves_get_data; try (unfold same_files; congruence).
  - reflexivity.
  - intros station entry data _. apply load_row_same_files.
Qed.

(** Claim C3: one turn of the loop for a station configured with ['1']
    leaves the wind data set as it was, one for a station configured
    with ['4'] leaves the temperature data set as it was, and after a
    run, finished or aborted, no record is in both data sets. *)
Theorem channel_partition :
  (forall station id (w : World drv),
      dict_get station_dict station = Ok (id, "1"%string) ->
      data_wind (snd (get_station dateutil station w)) = data_wind w)
  /\ (forall station id (w : World drv),
         dict_get station_dict station = Ok (id, "4"%string) ->
         data_temp (snd (get_station dateutil station w)) = data_temp w)
  /\ (forall arg fs r,
         In r (data_temp (snd (WebScraper drv dateutil arg fs))) ->
         In r (data_wind (snd (WebScraper drv dateutil arg fs))) ->
         False).
Proof.
  split; [|split].
  - intros station id w H. exact (get_station_same_wind station id H w).
  - intros station id w H. exact (get_station_same_temp station id H w).
  - intros arg fs r Ht Hw. unfold WebScraper in *.
    destruct (pipeline_keeps_partition (mkWorld drv arg [] [] None fs))
      as [Pt Pw].
    + split; intros ? [].
    + exact (configured_once _ (Pt r Ht) (Pw r Hw)).
Qed.

(** Claim C5: when scraping raises, the run ends with that exception and
    the files of the directory are those that were there before:
    [write_data] is the last step and is never reached. *)
Theorem failure_writes_no_file (arg : list (string * (string * string)))
        (fs : list (string * list observation)) (b : browser drv)
        (e : exn) (w1 : World drv) :
  Chrome drv = Ok b ->
  get_data dateutil (mkWorld drv arg [] [] (Some b) fs) = (Raise e, w1) ->
  WebScraper drv dateutil arg fs = (Raise e, w1) /\ files w1 = fs.
Proof.
  intros Hb Hg. split.
  - assert (S : set_webdriver (mkWorld drv arg [] [] None fs)
                = (Ok tt, mkWorld drv arg [] [] (Some b) fs))
      by (unfold set_webdriver; rewrite Hb; reflexivity).
    unfold WebScraper, pipeline. unfold bind at 1. rewrite S.
    unfold bind at 1. rewrite Hg. reflexivity.
  - pose proof (get_data_same_files (mkWorld drv arg [] [] (Some b) fs)) as F.
    rewrite Hg in F. exact F.
Qed.

(** Claim C7: a row appends its records, in their order, after the
    records already held by the data set of its channel, and the
    whole of [get_data], like the whole run, only ever adds at the
    end of either data set. *)
Theorem datasets_append_only (station year : string) (rest : list string)
        (ins : list observation) (w : World drv) :
  year <> "Year"%string ->
  data_insert dateutil station (year :: rest) = Ok ins ->
  (data_temp (snd (load_row dateutil station "1" (year :: rest) w))
   = data_temp w ++ ins
   /\ data_wind (snd (load_row dateutil station "1" (year :: rest) w))
      = data_wind w)
  /\ (data_wind (snd (load_row dateutil station "4" (year :: rest) w))
      = data_wind w ++ ins
      /\ data_temp (snd (load_row dateutil station "4" (year :: rest) w))
         = data_temp w)
  /\ (forall station' data_type data (w0 : World drv),
         extends w0 (snd (load_row dateutil station' data_type data w0)))
  /\ (forall w0 : World drv, extends w0 (snd (get_data dateutil w0)))
  /\ (forall w0 : World drv, extends w0 (snd (pipeline dateutil w0))).
Proof.
  intros Hy Hins. apply String.eqb_neq in Hy.
  rewrite (load_row_temp drv dateutil _ _ _ _ w Hy Hins).
  rewrite (load_row_wind drv dateutil _ _ _ _ w Hy Hins).
  repeat split; try reflexivity.
  - apply load_row_extends.
  - apply load_row_extends.
  - apply get_data_extends.
  - apply get_data_extends.
  - apply pipeline_extends.
  - apply pipeline_extends.
Qed.

End Run.

(** ** Where the identifiers come from *)




Section Blind.

Variable drv : WebDriver.
Variable dateutil : string -> result Timestamp.





















End Blind.

(** ** Closed instances on the scripted site *)

Lemma load_row_wrong_length_raises_witness :
  exists e,
    load_row no_dateutil "WAKKANAI" "1" [ "1991"; "1.0"; "2.0"; "3.0"; "6.5" ]
             (mkWorld (mock_driver site_short) station_dict [] [] None [])
    = (Raise e, mkWorld (mock_driver site_short) station_dict [] [] None []).
Proof.
  apply (load_row_wrong_length_raises (mock_driver site_short) no_dateutil
           "WAKKANAI" "1" [ "1991"; "1.0"; "2.0"; "3.0"; "6.5" ]).
  - discriminate.
  - cbn [length]. lia.
Defined.

Lemma load_row_other_channel_discards_witness :
  load_row no_dateutil "WAKKANAI" "2" row_1991
           (mkWorld (mock_driver site_1991) station_dict [] [] None [])
  = (Ok tt, mkWorld (mock_driver site_1991) station_dict [] [] None []).
Proof.
  destruct (load_row_other_channel_discards (mock_driver site_1991) no_dateutil
              "WAKKANAI" "2" row_1991
              (mkWorld (mock_driver site_1991) station_dict [] [] None []))
    as [_ H]; [discriminate | discriminate |].
  destruct (data_insert no_dateutil "WAKKANAI" row_1991) as [ins|e] eqn:E.
  - exact (H ins eq_refl).
  - vm_compute in E. discriminate E.
Defined.

Lemma channel_partition_witness :
  data_wind
    (snd (get_station no_dateutil "WAKKANAI"
            (mkWorld (mock_driver site_1991) station_dict [] []
                     (Some (mkMock "" [])) [])))
  = [].
Proof.
  apply (proj1 (channel_partition (mock_driver site_1991) no_dateutil)
           "WAKKANAI" "47401"
           (mkWorld (mock_driver site_1991) station_dict [] []
                    (Some (mkMock "" [])) [])).
  reflexivity.
Defined.

Lemma failure_writes_no_file_witness :
  WebScraper (mock_driver site_short) no_dateutil station_dict []
  = (Raise ValueError, short_stop)
  /\ files short_stop = [].
Proof.
  apply (failure_writes_no_file (mock_driver site_short) no_dateutil
           station_dict [] (mkMock "" []) ValueError short_stop).
  - reflexivity.
  - vm_compute. reflexivity.
Defined.

Lemma datasets_append_only_witness :
  exists ins,
    data_insert no_dateutil "WAKKANAI" row_1991 = Ok ins
    /\ data_temp
         (snd (load_row no_dateutil "WAKKANAI" "1" row_1991
                 (mkWorld (mock_driver site_1991) station_dict ins [] None [])))
       = ins ++ ins.
Proof.
  destruct (data_insert no_dateutil "WAKKANAI" row_1991) as [ins|e] eqn:E.
  - exists ins. split; [reflexivity|].
    apply (datasets_append_only (mock_driver site_1991) no_dateutil
             "WAKKANAI" "1991" (tl row_1991) ins
             (mkWorld (mock_driver site_1991) station_dict ins [] None [])).
    + discriminate.
    + exact E.
  - vm_compute in E. discriminate E.
Defined.


(** The mapping of the constructor gives OMU the identifiers of
    WAKKANAI; the run still selects the id that the module-level
    constant has for OMU and files the records of that page as wind
    speed. *)
Example run_omu_other_ids :
  let out := WebScraper (mock_driver site_by_id) no_dateutil
                        [("OMU"%string, ("47401"%string, "1"%string))] [] in
  fst out = Ok tt
  /\ data_temp (snd out) = []
  /\ data_wind (snd out) = row_records "OMU" row_1992
  /\ option_map selected (driver (snd out)) = Some "47405"%string.
Proof. vm_compute. repeat split. Qed.

(** The station WAKKANAI alone, on a page with the header and the
    year 1991: twelve temperature records, no wind record, and both
    files written at the end. *)
Example run_wakkanai_1991 :
  let out := WebScraper (mock_driver site_1991) no_dateutil
                        [("WAKKANAI"%string, ("47401"%string, "1"%string))] [] in
  fst out = Ok tt
  /\ data_temp (snd out)
     = map (fun tv => mkObservation (fst tv) (snd tv) "WAKKANAI")
           [ ("1991-01-01", "1.0"); ("1991-02-01", "2.0");
             ("1991-03-01", "3.0"); ("1991-04-01", "4.0");
             ("1991-05-01", "5.0"); ("1991-06-01", "6.0");
             ("1991-07-01", "7.0"); ("1991-08-01", "8.0");
             ("1991-09-01", "9.0"); ("1991-10-01", "10.0");
             ("1991-11-01", "11.0"); ("1991-12-01", "12.0") ]%string
  /\ data_wind (snd out) = []
  /\ files (snd out)
     = [ ("data_wind.json"%string, []);
         ("data_temp.json"%string, data_temp (snd out)) ].
Proof. vm_compute. repeat split. Qed.

(** The argument of the constructor says wind for WAKKANAI; the
    records still go where the module-level constant says. *)
Example run_wakkanai_other_ids :
  let out := WebScraper (mock_driver site_1991) no_dateutil
                        [("WAKKANAI"%string, ("00000"%string, "4"%string))] [] in
  length (data_temp (snd out)) = 12
  /\ data_wind (snd out) = []
  /\ option_map selected (driver (snd out)) = Some "47401"%string.
Proof. vm_compute. repeat split. Qed.

(** A station name that the module-level constant does not have. *)
Example run_unknown_station :
  fst (WebScraper (mock_driver site_1991) no_dateutil
                  [("SAPPORO"%string, ("47412"%string, "1"%string))] [])
  = Raise (KeyError "SAPPORO").
Proof. vm_compute. reflexivity. Qed.

(** A row of one or two cells: pandas builds twelve rows of NaN, and
    the sanitization raises on them. *)
Example row_of_two_cells :
  data_insert no_dateutil "WAKKANAI" [ "1991"; "6.5" ]%string = Raise TypeError.
Proof. vm_compute. reflexivity. Qed.

(** * Further properties *)

(** ** More on the sanitization *)

Lemma string_length_app (s t : string) :
  String.length (s ++ t) = String.length s + String.length t.
Proof. induction s as [|c s IH]; simpl; [reflexivity | now rewrite IH]. Qed.

Lemma string_app_assoc (s t u : string) :
  ((s ++ t) ++ u = s ++ t ++ u)%string.
Proof. induction s as [|c s IH]; simpl; [reflexivity | now rewrite IH]. Qed.

Lemma match_revision_no_newline (c : ascii) (s : string) :
  Ascii.eqb newline c = false -> match_here revision_re (String c s) = None.
Proof. intros H. rewrite match_revision_head, H. reflexivity. Qed.

(** The text before the first newline is kept as it is: a value on
    one line is never altered, and an annotation can only be found
    from a newline on. *)
Theorem sanitize_keeps_first_line (v u : string) :
  occurs newline v = false ->
  sanitize (v ++ u) = (v ++ sanitize u)%string.
Proof.
  unfold sanitize, re_sub. induction v as [|c v IH]; intros H.
  - reflexivity.
  - cbn [occurs] in H. apply orb_false_iff in H. destruct H as [Hc Hv].
    change (String c v ++ u)%string with (String c (v ++ u)).
    rewrite sub_from_no_match by (apply match_revision_no_newline; exact Hc).
    cbn [String.append]. f_equal. apply IH. exact Hv.
Qed.

Lemma sanitize_keeps_first_line_witness :
  sanitize ("-12.5 )" ++ String newline "Revision: 3..-")
  = ("-12.5 )" ++ sanitize (String newline "Revision: 3..-"))%string.
Proof.
  apply (sanitize_keeps_first_line "-12.5 )" (String newline "Revision: 3..-")).
  reflexivity.
Defined.

Lemma sub_from_skip p repl (a u : string) :
  sub_from p repl (String.length a) (a ++ u) = sub_from p repl 0 u.
Proof. induction a as [|c a IH]; [reflexivity | exact IH]. Qed.

Lemma match_annotation_then (ds dots u : string) :
  run_of is_digit ds = true ->
  run_of is_dot dots = true ->
  match_here revision_re (revision_prefix ++ ds ++ dots ++ "-" ++ u) = Some u.
Proof.
  intros Hds Hdots.
  apply run_of_all in Hds. destruct Hds as [Hds Hne].
  destruct (run_of_cons _ _ Hdots) as (c & dots' & -> & Hc & _).
  apply run_of_all in Hdots. destruct Hdots as [Hdots Hne'].
  change (match_here revision_re
            (revision_prefix ++ ds ++ String c dots' ++ "-" ++ u))
    with (match_plus is_digit (match_here [Plus is_dot; Lit "-"])
                     (ds ++ String c dots' ++ "-" ++ u)).
  apply match_plus_run; try assumption.
  - unfold is_dot in Hc. apply Ascii.eqb_eq in Hc. subst c. reflexivity.
  - change (match_here [Plus is_dot; Lit "-"] (String c dots' ++ "-" ++ u))
      with (match_plus is_dot (match_here [Lit "-"])
                       (String c dots' ++ "-" ++ u)).
    apply match_plus_run; try assumption; reflexivity.
Qed.

(** An annotation is removed wherever it stands, and the scan goes on
    behind it: a value that carries several annotations loses them
    all. *)
Theorem sanitize_removes_annotation_anywhere (v ds dots u : string) :
  has_revision v = false ->
  run_of is_digit ds = true ->
  run_of is_dot dots = true ->
  sanitize (v ++ revision_prefix ++ ds ++ dots ++ "-" ++ u)
  = (v ++ sanitize u)%string.
Proof.
  intros Hv Hds Hdots.
  pose proof (match_annotation_then ds dots u Hds Hdots) as Hm.
  unfold has_revision, sanitize, re_sub in *.
  induction v as [|c v IH].
  - change ("" ++ revision_prefix ++ ds ++ dots ++ "-" ++ u)%string
      with (String newline ("Revision: " ++ ds ++ dots ++ "-" ++ u)).
    change (revision_prefix ++ ds ++ dots ++ "-" ++ u)%string
      with (String newline ("Revision: " ++ ds ++ dots ++ "-" ++ u)) in Hm.
    cbn [sub_from]. rewrite Hm.
    assert (E : (("Revision: " ++ ds ++ dots ++ "-" ++ u)
                 = ("Revision: " ++ ds ++ dots ++ "-") ++ u)%string)
      by (rewrite !string_app_assoc; reflexivity).
    rewrite E. cbn [String.length]. rewrite string_length_app.
    replace (S (String.length ("Revision: " ++ ds ++ dots ++ "-")
                + String.length u) - String.length u)
      with (S (String.length ("Revision: " ++ ds ++ dots ++ "-"))) by lia.
    cbn [String.append]. apply sub_from_skip.
  - apply re_search_cons in Hv. destruct Hv as [Hc Hv].
    change (String c v ++ revision_prefix ++ ds ++ dots ++ "-" ++ u)%string
      with (String c v
            ++ String newline ("Revision: " ++ ds ++ dots ++ "-" ++ u))%string.
    assert (Hn : match_here revision_re
                   (String c v
                    ++ String newline ("Revision: " ++ ds ++ dots ++ "-" ++ u))
                 = None)
      by (rewrite match_revision_app, Hc; reflexivity).
    change (String c v
            ++ String newline ("Revision: " ++ ds ++ dots ++ "-" ++ u))%string
      with (String c (v ++ String newline
                               ("Revision: " ++ ds ++ dots ++ "-" ++ u)))
      in *.
    rewrite sub_from_no_match by exact Hn.
    cbn [String.append]. f_equal. apply IH. exact Hv.
Qed.

Lemma sanitize_removes_annotation_anywhere_witness :
  sanitize ("5.3" ++ revision_prefix ++ "12" ++ "." ++ "-"
            ++ (" ]" ++ String newline "Revision: 7..-"))
  = ("5.3" ++ sanitize (" ]" ++ String newline "Revision: 7..-"))%string.
Proof.
  apply (sanitize_removes_annotation_anywhere "5.3" "12" "."
           (" ]" ++ String newline "Revision: 7..-"));
    reflexivity.
Defined.

Lemma sub_from_length p (s : string) :
  forall k, String.length (sub_from p "" k s) <= String.length s.
Proof.
  induction s as [|c s IH]; intros k; cbn [sub_from String.length].
  - lia.
  - destruct k as [|k].
    + destruct (match_here p (String c s)) as [rest|].
      * destruct (S (String.length s) - String.length rest) as [|j];
          cbn [String.append String.length].
        -- specialize (IH 0). lia.
        -- specialize (IH j). lia.
      * cbn [String.length]. specialize (IH 0). lia.
    + specialize (IH k). lia.
Qed.

Lemma subseq_skip (s t : string) (c : ascii) :
  subseq s t = true -> subseq s (String c t) = true.
Proof.
  intros H. destruct s as [|a s']; cbn [subseq]; [reflexivity|].
  rewrite H. apply orb_true_r.
Qed.

Lemma subseq_keep (s t : string) (c : ascii) :
  subseq s t = true -> subseq (String c s) (String c t) = true.
Proof.
  intros H. cbn [subseq]. now rewrite Ascii.eqb_refl, H.
Qed.

Lemma sub_from_subseq p (s : string) :
  forall k, subseq (sub_from p "" k s) s = true.
Proof.
  induction s as [|c s IH]; intros k; cbn [sub_from].
  - reflexivity.
  - destruct k as [|k].
    + destruct (match_here p (String c s)) as [rest|].
      * destruct (String.length (String c s) - String.length rest) as [|j];
          cbn [String.append].
        -- apply subseq_keep, IH.
        -- apply subseq_skip, IH.
      * apply subseq_keep, IH.
    + apply subseq_skip, IH.
Qed.

(** The sanitization only ever deletes characters: what it returns is
    the cell text with some of its characters left out, the others
    kept in their order, and so it is never longer than the cell
    text. *)
Theorem sanitize_only_deletes (s : string) :
  subseq (sanitize s) s = true
  /\ String.length (sanitize s) <= String.length s.
Proof.
  split.
  - apply sub_from_subseq.
  - apply sub_from_length.
Qed.

(** ** Years outside the range of a Timestamp *)

Lemma mapR_ext {A B} (f g : A -> result B) (l : list A) :
  (forall x, In x l -> f x = g x) -> mapR f l = mapR g l.
Proof.
  induction l as [|x l IH]; intros H; cbn [mapR].
  - reflexivity.
  - rewrite (H x (or_introl eq_refl)).
    rewrite IH by (intros y Hy; apply H; now right). reflexivity.
Qed.

Lemma in_bounds_early (n m : nat) :
  n <= 1677 -> In m months -> m <= 9 -> in_bounds (mkTimestamp n m 1) = false.
Proof.
  intros Hn Hm Hm9. unfold in_bounds, date_leb, Timestamp_min.
  cbn [ts_year ts_month ts_day].
  rewrite (proj2 (Nat.ltb_ge 1677 n)) by lia.
  destruct (Nat.eqb_spec 1677 n) as [_|_]; [|reflexivity].
  unfold months in Hm. cbn [seq In] in Hm.
  repeat (destruct Hm as [<-|Hm]; [try reflexivity; lia|]). contradiction.
Qed.

Section Bounds.

Variable drv : WebDriver.

Lemma dates_by_bounds (y : string) (n : nat) :
  year_value y = Some n ->
  dates nanosecond_bounds y
  = mapR (fun m =>
            if in_bounds (mkTimestamp n m 1)
            then Ok (y ++ "-" ++ pad2 m ++ "-01")%string
            else Raise OutOfBoundsDatetime)
         months.
Proof.
  intros Hn. unfold dates. apply mapR_ext. intros m Hm.
  unfold to_datetime, nanosecond_bounds.
  rewrite (parse_iso_year_month _ _ _ Hn Hm), (valid_first_of_month n _ Hm).
  destruct (in_bounds (mkTimestamp n m 1)); [|reflexivity].
  cbn [rbind]. unfold strftime. cbn [ts_year ts_month ts_day].
  rewrite (pad4_year_value _ _ Hn). reflexivity.
Qed.

Lemma dates_out_of_bounds (y : string) (n : nat) :
  year_value y = Some n ->
  n < 1678 \/ 2261 < n ->
  dates nanosecond_bounds y = Raise OutOfBoundsDatetime.
Proof.
  intros Hn Hr. rewrite (dates_by_bounds _ _ Hn).
  assert (H1 : In 1 months) by (unfold months; cbn; tauto).
  destruct Hr as [Hr|Hr].
  - unfold months. cbn [seq mapR].
    rewrite (in_bounds_early n 1) by (assumption || lia). reflexivity.
  - unfold months. cbn [seq mapR].
    assert (Hm : forall m, In m months -> m <= 4 ->
                           n = 2262 \/ in_bounds (mkTimestamp n m 1) = false).
    { intros m Hm H4. destruct (Nat.eq_dec n 2262) as [E|E]; [now left|right].
      unfold in_bounds, date_leb, Timestamp_max. cbn [ts_year ts_month ts_day].
      rewrite (proj2 (Nat.ltb_ge n 2262)) by lia.
      rewrite (proj2 (Nat.eqb_neq n 2262)) by lia.
      apply andb_false_r. }
    destruct (Hm 1 H1 ltac:(lia)) as [->|E1].
    + reflexivity.
    + rewrite E1. reflexivity.
Qed.

(** With a pandas that keeps nanoseconds, a year cell of four digits
    has its twelve dates built when the year is between 1678 and 2261;
    for any other four-digit year some month lies outside the range,
    the row raises [OutOfBoundsDatetime] whatever its other cells
    are, and nothing is appended. *)
Theorem nanosecond_years (station data_type y : string) (n : nat)
        (rest : list string) (w : World drv) :
  year_value y = Some n ->
  (1678 <= n <= 2261 ->
   dates nanosecond_bounds y = Ok (map (String.append y) month_suffixes))
  /\ (n < 1678 \/ 2261 < n ->
      dates nanosecond_bounds y = Raise OutOfBoundsDatetime
      /\ load_row nanosecond_bounds station data_type (y :: rest) w
         = (Raise OutOfBoundsDatetime, w)).
Proof.
  intros Hn. split.
  - intros Hr. apply dates_well_formed.
    unfold well_formed_year. rewrite Hn.
    apply andb_true_iff. rewrite !Nat.leb_le. exact Hr.
  - intros Hr. pose proof (dates_out_of_bounds _ _ Hn Hr) as Hd.
    split; [exact Hd|].
    apply load_row_raise.
    + destruct (String.eqb_spec y "Year") as [->|]; [discriminate Hn|reflexivity].
    + unfold data_insert. cbn [hd]. rewrite Hd. reflexivity.
Qed.

End Bounds.

Lemma nanosecond_years_witness :
  dates nanosecond_bounds "2261" = Ok (map (String.append "2261") month_suffixes)
  /\ load_row nanosecond_bounds "WAKKANAI" "1" ("2262"%string :: tl row_1991)
              (mkWorld (mock_driver site_1991) station_dict [] [] None [])
     = (Raise OutOfBoundsDatetime,
        mkWorld (mock_driver site_1991) station_dict [] [] None []).
Proof.
  split.
  - apply (proj1 (nanosecond_years (mock_driver site_1991)
                    "WAKKANAI" "1" "2261" 2261 (tl row_1991)
                    (mkWorld (mock_driver site_1991) station_dict [] [] None [])
                    eq_refl)).
    lia.
  - apply (proj2 (nanosecond_years (mock_driver site_1991)
                    "WAKKANAI" "1" "2262" 2262 (tl row_1991)
                    (mkWorld (mock_driver site_1991) station_dict [] [] None [])
                    eq_refl)).
    right. lia.
Defined.

(** A pandas that takes a coarser unit builds the row of the year
    1500. *)
Example row_of_1500_coarser_unit :
  data_insert coarser_unit "WAKKANAI" row_1500
  = Ok (zip_rows "WAKKANAI" (map sanitize (interior row_1500))
                 (map (String.append "1500") month_suffixes)).
Proof. vm_compute. reflexivity. Qed.

(** ** Every frame that is appended *)

Lemma station_dict_channels (station : string) (entry : string * string) :
  dict_get station_dict station = Ok entry ->
  snd entry = "1"%string \/ snd entry = "4"%string.
Proof.
  unfold station_dict. cbn [dict_get].
  repeat (destruct (String.eqb _ station);
          [intros H; injection H as <-; cbn [snd]; tauto|]).
  discriminate.
Qed.

Lemma configured_stations (code station : string) :
  configured_with code station = true ->
  (code = "1"%string
   /\ In station ["WAKKANAI"; "HABORO"; "RUMOI"; "OBIHIRO"]%string)
  \/ (code = "4"%string
      /\ In station ["OMU"; "SUTTSU"; "MURORAN"; "KUTCHAN"]%string).
Proof.
  unfold configured_with, station_dict. cbn [dict_get].
  repeat (match goal with
          | |- context [String.eqb ?k station] =>
              destruct (String.eqb_spec k station) as [<-|_]
          end;
          [cbn [snd]; intros H; apply String.eqb_eq in H; subst code;
           first [left; split; [reflexivity | cbn [In]; auto 10]
                 | right; split; [reflexivity | cbn [In]; auto 10]]|]).
  intros H. discriminate H.
Qed.

Section Frames.

Variable drv : WebDriver.
Variable dateutil : string -> result Timestamp.

Lemma data_insert_frame (station : string) (data : list string)
        (ins : list observation) :
  data_insert dateutil station data = Ok ins ->
  length data = 14
  /\ length ins = 12
  /\ map Value ins = map sanitize (interior data)
  /\ map Station ins = repeat station 12
  /\ dates dateutil (hd ""%string data) = Ok (map Time ins).
Proof.
  intros H.
  destruct (Nat.eq_dec (length data) 14) as [E|E].
  - split; [exact E|].
    do 15 (destruct data as [|? data]; try discriminate E).
    unfold data_insert in H. cbn [hd] in *.
    destruct (dates dateutil s) as [ds|e] eqn:Hd; [|discriminate H].
    pose proof (dates_length dateutil _ _ Hd) as Hl.
    do 13 (destruct ds as [|? ds]; try discriminate Hl).
    cbn -[sanitize] in H. injection H as <-.
    repeat split; reflexivity.
  - destruct (data_insert_wrong_length dateutil station data E) as [e He].
    rewrite He in H. discriminate H.
Qed.

(** Whatever the year cell is and whatever the date parser makes of
    it, a row whose frame is built has fourteen cells, and the frame
    has twelve records that carry the sanitized texts of the twelve
    interior cells in their order, the name of the station, and the
    twelve dates as time stamps. *)
Theorem data_insert_shape (station : string) (data : list string)
        (ins : list observation) :
  data_insert dateutil station data = Ok ins ->
  length data = 14
  /\ length ins = 12
  /\ map Value ins = map sanitize (interior data)
  /\ map Station ins = repeat station 12
  /\ dates dateutil (hd ""%string data) = Ok (map Time ins).
Proof.
  intros H.
  destruct (data_insert_frame station data ins H) as (H1 & H2 & H3 & H4 & H5).
  repeat split; assumption.
Qed.

Lemma keeps_dozens_same (w w' : World drv) :
  data_temp w' = data_temp w -> data_wind w' = data_wind w ->
  keeps_dozens w w'.
Proof. intros Ht Hw. unfold keeps_dozens. rewrite Ht, Hw. tauto. Qed.

Lemma load_row_keeps_dozens (station data_type : string) (data : list string) :
  preserves (keeps_dozens (drv := drv))
            (load_row dateutil station data_type data).
Proof.
  intros w.
  destruct (load_row_cases drv dateutil station data_type data w)
    as [->|(ins & Hins & [[_ ->]|[_ ->]])].
  - now apply keeps_dozens_same.
  - apply data_insert_frame in Hins. destruct Hins as (_ & Hl & _).
    split; cbn [data_temp data_wind]; [|tauto].
    rewrite length_app, Hl. intros Hd.
    apply Nat.divide_add_r; [exact Hd | apply Nat.divide_refl].
  - apply data_insert_frame in Hins. destruct Hins as (_ & Hl & _).
    split; cbn [data_temp data_wind]; [tauto|].
    rewrite length_app, Hl. intros Hd.
    apply Nat.divide_add_r; [exact Hd | apply Nat.divide_refl].
Qed.

Lemma pipeline_keeps_dozens :
  preserves (keeps_dozens (drv := drv)) (pipeline dateutil).
Proof.
  apply preserves_pipeline.
  - intros w. now apply keeps_dozens_same.
  - intros w1 w2 w3 [A1 B1] [A2 B2]. split; auto.
  - intros w b. now apply keeps_dozens_same.
  - intros station entry data _. apply load_row_keeps_dozens.
  - intros w fs. now apply keeps_dozens_same.
Qed.

(** After a run, finished or aborted at any point, each data set
    holds a whole number of years: its length is a multiple of
    twelve. *)
Theorem run_keeps_whole_years (arg : list (string * (string * string)))
        (fs : list (string * list observation)) :
  Nat.divide 12 (length (data_temp (snd (WebScraper drv dateutil arg fs))))
  /\ Nat.divide 12 (length (data_wind (snd (WebScraper drv dateutil arg fs)))).
Proof.
  unfold WebScraper.
  destruct (pipeline_keeps_dozens (mkWorld drv arg [] [] None fs)) as [Ht Hw].
  split; [apply Ht | apply Hw]; apply Nat.divide_0_r.
Qed.

(** After a run, finished or aborted, every temperature record names
    one of the four stations configured with ['1'] and every wind
    record one of the four stations configured with ['4'], whatever
    the argument of the constructor was. *)
Theorem run_records_name_configured_stations
        (arg : list (string * (string * string)))
        (fs : list (string * list observation)) (r : observation) :
  (In r (data_temp (snd (WebScraper drv dateutil arg fs))) ->
   In (Station r) ["WAKKANAI"; "HABORO"; "RUMOI"; "OBIHIRO"]%string)
  /\ (In r (data_wind (snd (WebScraper drv dateutil arg fs))) ->
      In (Station r) ["OMU"; "SUTTSU"; "MURORAN"; "KUTCHAN"]%string).
Proof.
  unfold WebScraper.
  destruct (pipeline_keeps_partition drv dateutil
              (mkWorld drv arg [] [] None fs)) as [Pt Pw].
  { split; intros ? []. }
  split; intros Hr.
  - destruct (configured_stations _ _ (Pt r Hr)) as [[_ H]|[H _]];
      [exact H | discriminate H].
  - destruct (configured_stations _ _ (Pw r Hr)) as [[H _]|[_ H]];
      [discriminate H | exact H].
Qed.

(** In a turn of the station loop no parsed row is dropped: the
    channel code of a configured station is ['1'] or ['4'], so the
    twelve records of a row go to exactly one of the two data sets
    and the other one stays as it was. *)
Theorem configured_row_appended_once (station year : string)
        (entry : string * string) (rest : list string)
        (ins : list observation) (w : World drv) :
  dict_get station_dict station = Ok entry ->
  year <> "Year"%string ->
  data_insert dateutil station (year :: rest) = Ok ins ->
  fst (load_row dateutil station (snd entry) (year :: rest) w) = Ok tt
  /\ ((data_temp (snd (load_row dateutil station (snd entry) (year :: rest) w))
       = data_temp w ++ ins
       /\ data_wind (snd (load_row dateutil station (snd entry) (year :: rest) w))
          = data_wind w)
      \/ (data_temp (snd (load_row dateutil station (snd entry) (year :: rest) w))
          = data_temp w
          /\ data_wind (snd (load_row dateutil station (snd entry) (year :: rest) w))
             = data_wind w ++ ins)).
Proof.
  intros He Hy Hins. apply String.eqb_neq in Hy.
  destruct (station_dict_channels _ _ He) as [-> | ->].
  - rewrite (load_row_temp drv dateutil _ _ _ _ w Hy Hins).
    split; [reflexivity | left; split; reflexivity].
  - rewrite (load_row_wind drv dateutil _ _ _ _ w Hy Hins).
    split; [reflexivity | right; split; reflexivity].
Qed.

End Frames.

Lemma data_insert_shape_witness :
  exists ins,
    data_insert no_dateutil "OMU" row_1992 = Ok ins
    /\ length row_1992 = 14
    /\ length ins = 12
    /\ map Value ins = map sanitize (interior row_1992)
    /\ map Station ins = repeat "OMU"%string 12
    /\ dates no_dateutil (hd ""%string row_1992) = Ok (map Time ins).
Proof.
  destruct (data_insert no_dateutil "OMU" row_1992) as [ins|e] eqn:E.
  - exists ins. split; [reflexivity|].
    exact (data_insert_shape no_dateutil "OMU" row_1992 ins E).
  - vm_compute in E. discriminate E.
Defined.

Lemma configured_row_appended_once_witness :
  exists ins,
    data_insert no_dateutil "OMU" row_1992 = Ok ins
    /\ fst (load_row no_dateutil "OMU" "4" row_1992
              (mkWorld (mock_driver site_1991) station_dict [] [] None []))
       = Ok tt.
Proof.
  destruct (data_insert no_dateutil "OMU" row_1992) as [ins|e] eqn:E.
  - exists ins. split; [reflexivity|].
    apply (configured_row_appended_once (mock_driver site_1991) no_dateutil
             "OMU" "1992" ("47405"%string, "4"%string) (tl row_1992) ins
             (mkWorld (mock_driver site_1991) station_dict [] [] None [])).
    + reflexivity.
    + discriminate.
    + exact E.
  - vm_compute in E. discriminate E.
Defined.

(** ** A whole page *)

Section Page.

Variable drv : WebDriver.
Variable dateutil : string -> result Timestamp.

Lemma world_eta (w : World drv) (b : browser drv) :
  driver w = Some b ->
  mkWorld drv (self_station_dict w) (data_temp w) (data_wind w) (Some b)
          (files w) = w.
Proof. destruct w. cbn. intros ->. reflexivity. Qed.

Lemma on_driver_static {A} (op : browser drv -> result A * browser drv)
      (b : browser drv) (r : result A) (w : World drv) :
  driver w = Some b -> op b = (r, b) -> on_driver op w = (r, w).
Proof.
  intros Hd Hop. unfold on_driver. rewrite Hd, Hop.
  now rewrite (world_eta w b Hd).
Qed.

Lemma mapM_text_static (b : browser drv) (cells : list (element drv))
      (row : list string) (w : World drv) :
  driver w = Some b ->
  Forall2 (fun c txt => text drv c b = (Ok txt, b)) cells row ->
  mapM (fun i => on_driver (text drv i)) cells w = (Ok row, w).
Proof.
  intros Hd HF. induction HF as [|c txt cells row Hc HF IH]; cbn [mapM].
  - reflexivity.
  - unfold bind at 1. rewrite (on_driver_static _ b (Ok txt) w Hd Hc).
    unfold bind at 1. rewrite IH. reflexivity.
Qed.

Lemma load_row_driver (station data_type : string) (data : list string)
      (w : World drv) :
  driver (snd (load_row dateutil station data_type data w)) = driver w.
Proof.
  destruct (load_row_cases drv dateutil station data_type data w)
    as [->|(ins & _ & [[_ ->]|[_ ->]])]; reflexivity.
Qed.

(** On a page that stays as it is while it is read, [load_data] is
    the loop body applied to the rows from top to bottom. *)
Lemma load_data_static (station data_type : string) (b : browser drv)
      (rows : list (list string)) (w : World drv) :
  static_page drv b rows ->
  driver w = Some b ->
  load_data dateutil station data_type w
  = for_each rows (load_row dateutil station data_type) w.
Proof.
  intros (tabs & Hf & HF) Hd. unfold load_data. unfold bind at 1.
  rewrite (on_driver_static _ b (Ok tabs) w Hd Hf).
  match goal with |- for_each _ ?f _ = _ => set (body := f) end.
  clear Hf. revert w Hd.
  induction HF as [|tab row tabs rows (cells & Hc & Ht) HF IH]; intros w Hd.
  - reflexivity.
  - assert (Hb : body tab w = load_row dateutil station data_type row w).
    { subst body. cbv beta. unfold bind at 1.
      rewrite (on_driver_static _ b (Ok cells) w Hd Hc).
      unfold bind at 1. rewrite (mapM_text_static b cells row w Hd Ht).
      reflexivity. }
    cbn [for_each]. unfold bind. rewrite Hb.
    pose proof (load_row_driver station data_type row w) as Hd'.
    destruct (load_row dateutil station data_type row w) as [[[]|e] w'];
      cbn [snd] in Hd'; [|reflexivity].
    apply IH. now rewrite Hd'.
Qed.

Lemma with_records_nil (data_type : string) (w : World drv) :
  with_records data_type [] w = w.
Proof.
  unfold with_records. destruct w.
  destruct (String.eqb data_type "1"); cbn; [now rewrite app_nil_r|].
  destruct (String.eqb data_type "4"); cbn; [now rewrite app_nil_r|].
  reflexivity.
Qed.

Lemma with_records_app (data_type : string) (r1 r2 : list observation)
      (w : World drv) :
  with_records data_type r2 (with_records data_type r1 w)
  = with_records data_type (r1 ++ r2) w.
Proof.
  unfold with_records.
  destruct (String.eqb data_type "1"); cbn; [now rewrite app_assoc|].
  destruct (String.eqb data_type "4"); cbn; [now rewrite app_assoc|].
  reflexivity.
Qed.

Lemma data_insert_row_records (station year : string) (rest : list string) :
  well_formed_year year = true ->
  length (year :: rest) = 14 ->
  data_insert dateutil station (year :: rest)
  = Ok (row_records station (year :: rest)).
Proof.
  intros Hy Hlen.
  do 14 (destruct rest as [|? rest]; try discriminate Hlen).
  unfold data_insert, row_records. cbn [hd].
  rewrite (well_formed_year_not_header _ Hy), (dates_well_formed dateutil _ Hy).
  reflexivity.
Qed.

Lemma load_row_well_formed_row (station data_type : string)
      (row : list string) (w : World drv) :
  well_formed_row row = true ->
  load_row dateutil station data_type row w
  = (Ok tt, with_records data_type (row_records station row) w).
Proof.
  unfold well_formed_row. destruct row as [|year rest]; [discriminate|].
  destruct (String.eqb year "Year") eqn:Hh; cbn [orb].
  - intros _. unfold row_records. rewrite Hh, with_records_nil.
    unfold load_row. rewrite Hh. reflexivity.
  - intros H. apply andb_true_iff in H. destruct H as [Hy Hl].
    apply Nat.eqb_eq in Hl.
    pose proof (data_insert_row_records station year rest Hy Hl) as E.
    unfold with_records.
    destruct (String.eqb data_type "1") eqn:H1.
    + apply String.eqb_eq in H1. subst data_type.
      now rewrite (load_row_temp drv dateutil _ _ _ _ w Hh E).
    + destruct (String.eqb data_type "4") eqn:H4.
      * apply String.eqb_eq in H4. subst data_type.
        now rewrite (load_row_wind drv dateutil _ _ _ _ w Hh E).
      * rewrite (load_row_other drv dateutil _ _ _ w H1 H4), Hh, E.
        reflexivity.
Qed.

Lemma for_each_well_formed_rows (station data_type : string)
      (good rest : list (list string)) :
  forallb well_formed_row good = true ->
  forall w : World drv,
    for_each (good ++ rest) (load_row dateutil station data_type) w
    = for_each rest (load_row dateutil station data_type)
               (with_records data_type (flat_map (row_records station) good) w).
Proof.
  induction good as [|row good IH]; intros Hg w.
  - cbn [app flat_map]. now rewrite with_records_nil.
  - cbn [forallb] in Hg. apply andb_true_iff in Hg. destruct Hg as [Hr Hg].
    cbn [app for_each flat_map]. unfold bind at 1.
    rewrite (load_row_well_formed_row station data_type row w Hr).
    rewrite (IH Hg), with_records_app. reflexivity.
Qed.

Lemma load_row_malformed (station data_type : string) (data : list string)
      (w : World drv) :
  hd_error data <> Some "Year"%string ->
  length data <> 14 ->
  exists e, load_row dateutil station data_type data w = (Raise e, w).
Proof.
  intros Hh Hlen. destruct data as [|year rest].
  - exists IndexError. reflexivity.
  - destruct (data_insert_wrong_length dateutil station (year :: rest) Hlen)
      as [e He].
    exists e. apply load_row_raise; [|exact He].
    destruct (String.eqb_spec year "Year") as [->|]; [|reflexivity].
    now contradiction Hh.
Qed.

(** A page made of header rows and well-formed year rows is taken
    whole: [load_data] returns normally and the data set of the
    channel has grown by the records of the rows, year after year
    from top to bottom; nothing else of the scraper has changed. *)
Theorem load_data_well_formed_page (station data_type : string)
        (b : browser drv) (rows : list (list string)) (w : World drv) :
  static_page drv b rows ->
  driver w = Some b ->
  forallb well_formed_row rows = true ->
  load_data dateutil station data_type w
  = (Ok tt,
     with_records data_type (flat_map (row_records station) rows) w).
Proof.
  intros Hp Hd Hg.
  rewrite (load_data_static station data_type b rows w Hp Hd).
  rewrite <- (app_nil_r rows) at 1.
  rewrite (for_each_well_formed_rows station data_type rows [] Hg w).
  reflexivity.
Qed.

(** The first row that is neither the header nor fourteen cells long
    stops [load_data] with an exception; the records of the rows above
    it are in the data set by then and stay there, and the rows below
    it are not looked at. *)
Theorem load_data_stops_at_malformed_row (station data_type : string)
        (b : browser drv) (good rest : list (list string))
        (bad : list string) (w : World drv) :
  static_page drv b (good ++ bad :: rest) ->
  driver w = Some b ->
  forallb well_formed_row good = true ->
  hd_error bad <> Some "Year"%string ->
  length bad <> 14 ->
  exists e,
    load_data dateutil station data_type w
    = (Raise e,
       with_records data_type (flat_map (row_records station) good) w).
Proof.
  intros Hp Hd Hg Hh Hlen.
  rewrite (load_data_static station data_type b _ w Hp Hd).
  rewrite (for_each_well_formed_rows station data_type good (bad :: rest) Hg w).
  destruct (load_row_malformed station data_type bad
              (with_records data_type (flat_map (row_records station) good) w)
              Hh Hlen) as [e He].
  exists e. cbn [for_each]. unfold bind. rewrite He. reflexivity.
Qed.

End Page.

Lemma mock_static_page (site : string -> list (list string)) (b : mock_browser) :
  static_page (mock_driver site) b (shown b).
Proof.
  exists (map MRow (shown b)). split; [reflexivity|].
  induction (shown b) as [|row rows IH]; cbn [map]; constructor; [|exact IH].
  exists (map MCell row). split; [reflexivity|].
  induction row as [|c row IHr]; cbn [map]; constructor;
    [reflexivity | exact IHr].
Qed.

Lemma load_data_well_formed_page_witness :
  load_data no_dateutil "WAKKANAI" "1"
            (mkWorld (mock_driver site_1991) station_dict [] []
                     (Some (mkMock "47401" [header_row; row_1991; row_1992])) [])
  = (Ok tt,
     with_records "1"
       (flat_map (row_records "WAKKANAI") [header_row; row_1991; row_1992])
       (mkWorld (mock_driver site_1991) station_dict [] []
                (Some (mkMock "47401" [header_row; row_1991; row_1992])) [])).
Proof.
  apply (load_data_well_formed_page (mock_driver site_1991) no_dateutil
           "WAKKANAI" "1" (mkMock "47401" [header_row; row_1991; row_1992])
           [header_row; row_1991; row_1992]).
  - apply (mock_static_page site_1991
             (mkMock "47401" [header_row; row_1991; row_1992])).
  - reflexivity.
  - vm_compute. reflexivity.
Defined.

Lemma load_data_stops_at_malformed_row_witness :
  exists e,
    load_data no_dateutil "WAKKANAI" "1"
              (mkWorld (mock_driver site_1991) station_dict [] []
                       (Some (mkMock "47401"
                                     [header_row; row_1991; ["1992"; "1.0"];
                                      row_1992]%string)) [])
    = (Raise e,
       with_records "1"
         (flat_map (row_records "WAKKANAI") [header_row; row_1991])
         (mkWorld (mock_driver site_1991) station_dict [] []
                  (Some (mkMock "47401"
                                [header_row; row_1991; ["1992"; "1.0"];
                                 row_1992]%string)) [])).
Proof.
  apply (load_data_stops_at_malformed_row (mock_driver site_1991) no_dateutil
           "WAKKANAI" "1"
           (mkMock "47401" [header_row; row_1991; ["1992"; "1.0"]; row_1992]%string)
           [header_row; row_1991] [row_1992] ["1992"; "1.0"]%string).
  - apply (mock_static_page site_1991
             (mkMock "47401"
                     [header_row; row_1991; ["1992"; "1.0"]; row_1992]%string)).
  - reflexivity.
  - vm_compute. reflexivity.
  - discriminate.
  - cbn [length]. lia.
Defined.

(** ** A page with one year *)

Section YearRow.

Variable drv : WebDriver.
Variable dateutil : string -> result Timestamp.


End YearRow.



(** ** The end of the run *)

Lemma file_get_filter (path other : string)
      (fs : list (string * list observation)) :
  file_get path (filter (fun f => negb (String.eqb (fst f) other)) fs)
  = if String.eqb other path then None else file_get path fs.
Proof.
  induction fs as [|[p df] fs IH]; cbn [filter file_get fst].
  - destruct (String.eqb other path); reflexivity.
  - destruct (String.eqb_spec p other) as [->|Hne]; cbn [negb file_get].
    + rewrite IH. destruct (String.eqb other path); reflexivity.
    + rewrite IH. destruct (String.eqb_spec p path) as [->|]; [|reflexivity].
      destruct (String.eqb_spec other path) as [->|]; [|reflexivity].
      now contradiction Hne.
Qed.

Section Ending.

Variable drv : WebDriver.
Variable dateutil : string -> result Timestamp.

Lemma pipeline_after_get_data (arg : list (string * (string * string)))
      (fs : list (string * list observation)) (b b1 b2 : browser drv)
      (w1 : World drv) (r : result unit) :
  Chrome drv = Ok b ->
  get_data dateutil (mkWorld drv arg [] [] (Some b) fs) = (Ok tt, w1) ->
  driver w1 = Some b1 ->
  close drv b1 = (r, b2) ->
  WebScraper drv dateutil arg fs
  = bind (lift r) (fun _ => @write_data drv)
         (mkWorld drv (self_station_dict w1) (data_temp w1) (data_wind w1)
                  (Some b2) (files w1)).
Proof.
  intros Hb Hg Hd Hc.
  assert (S : set_webdriver (mkWorld drv arg [] [] None fs)
              = (Ok tt, mkWorld drv arg [] [] (Some b) fs))
    by (unfold set_webdriver; rewrite Hb; reflexivity).
  unfold WebScraper, pipeline. unfold bind at 1. rewrite S.
  unfold bind at 1. rewrite Hg.
  unfold bind, on_driver, lift. rewrite Hd, Hc. reflexivity.
Qed.

(** When scraping and closing the browser succeed, the run returns
    normally, [data_temp.json] holds the temperature records and
    [data_wind.json] the wind records, both in the order in which
    they were scraped and also when a data set is empty; what either
    file held before is gone, and every other file is as it was. *)
Theorem run_writes_both_files (arg : list (string * (string * string)))
        (fs : list (string * list observation)) (b b1 b2 : browser drv)
        (w1 : World drv) :
  Chrome drv = Ok b ->
  get_data dateutil (mkWorld drv arg [] [] (Some b) fs) = (Ok tt, w1) ->
  driver w1 = Some b1 ->
  close drv b1 = (Ok tt, b2) ->
  fst (WebScraper drv dateutil arg fs) = Ok tt
  /\ data_temp (snd (WebScraper drv dateutil arg fs)) = data_temp w1
  /\ data_wind (snd (WebScraper drv dateutil arg fs)) = data_wind w1
  /\ file_get "data_temp.json" (files (snd (WebScraper drv dateutil arg fs)))
     = Some (data_temp w1)
  /\ file_get "data_wind.json" (files (snd (WebScraper drv dateutil arg fs)))
     = Some (data_wind w1)
  /\ forall path,
      path <> "data_temp.json"%string ->
      path <> "data_wind.json"%string ->
      file_get path (files (snd (WebScraper drv dateutil arg fs)))
      = file_get path fs.
Proof.
  intros Hb Hg Hd Hc.
  rewrite (pipeline_after_get_data arg fs b b1 b2 w1 (Ok tt) Hb Hg Hd Hc).
  pose proof (get_data_same_files drv dateutil
                (mkWorld drv arg [] [] (Some b) fs)) as Hf.
  rewrite Hg in Hf. unfold same_files in Hf. cbn [snd files] in Hf.
  unfold bind, lift, write_data, to_json.
  cbn [fst snd data_temp data_wind files self_station_dict driver].
  rewrite Hf. unfold bind.
  cbn [fst snd data_temp data_wind files self_station_dict driver].
  split; [reflexivity|]. split; [reflexivity|]. split; [reflexivity|].
  split; [reflexivity|]. split; [reflexivity|].
  intros path Ht Hw.
  assert (Ht1 : String.eqb "data_temp.json" path = false)
    by (apply String.eqb_neq; congruence).
  assert (Hw1 : String.eqb "data_wind.json" path = false)
    by (apply String.eqb_neq; congruence).
  cbn [file_get filter fst].
  change (negb ("data_temp.json" =? "data_wind.json")%string) with true.
  cbn [file_get]. rewrite Hw1, file_get_filter, Hw1.
  cbn [file_get]. rewrite Ht1, file_get_filter, Ht1.
  reflexivity.
Qed.

(** When the browser fails to close after a complete scrape, the run
    ends with that exception and no file is written: [write_data]
    comes after [driver.close()], so the records that were scraped
    exist in memory only. *)
Theorem close_failure_loses_scraped_data
        (arg : list (string * (string * string)))
        (fs : list (string * list observation)) (b b1 b2 : browser drv)
        (w1 : World drv) (e : exn) :
  Chrome drv = Ok b ->
  get_data dateutil (mkWorld drv arg [] [] (Some b) fs) = (Ok tt, w1) ->
  driver w1 = Some b1 ->
  close drv b1 = (Raise e, b2) ->
  WebScraper drv dateutil arg fs
  = (Raise e,
     mkWorld drv (self_station_dict w1) (data_temp w1) (data_wind w1)
             (Some b2) fs).
Proof.
  intros Hb Hg Hd Hc.
  rewrite (pipeline_after_get_data arg fs b b1 b2 w1 (Raise e) Hb Hg Hd Hc).
  pose proof (get_data_same_files drv dateutil
                (mkWorld drv arg [] [] (Some b) fs)) as Hf.
  rewrite Hg in Hf. unfold same_files in Hf. cbn [snd files] in Hf.
  unfold bind, lift. rewrite Hf. reflexivity.
Qed.

End Ending.

Lemma run_writes_both_files_witness :
  fst (WebScraper (mock_driver site_1991) no_dateutil
                  [("WAKKANAI", ("47401", "1"))]%string
                  [("data_temp.json"%string, []); ("notes.txt"%string, [])])
  = Ok tt
  /\ file_get "data_temp.json"
       (files (snd (WebScraper (mock_driver site_1991) no_dateutil
                      [("WAKKANAI", ("47401", "1"))]%string
                      [("data_temp.json"%string, []); ("notes.txt"%string, [])])))
     = Some (row_records "WAKKANAI" row_1991).
Proof.
  destruct (run_writes_both_files (mock_driver site_1991) no_dateutil
              [("WAKKANAI", ("47401", "1"))]%string
              [("data_temp.json"%string, []); ("notes.txt"%string, [])]
              (mkMock "" []) (mkMock "47401" (site_1991 "47401"))
              (mkMock "47401" (site_1991 "47401"))
              (mkWorld (mock_driver site_1991)
                       [("WAKKANAI", ("47401", "1"))]%string
                       (row_records "WAKKANAI" row_1991) []
                       (Some (mkMock "47401" (site_1991 "47401")))
                       [("data_temp.json"%string, []); ("notes.txt"%string, [])]))
    as (H1 & _ & _ & H4 & _).
  - reflexivity.
  - vm_compute. reflexivity.
  - reflexivity.
  - reflexivity.
  - split; [exact H1 | exact H4].
Defined.

Lemma close_failure_loses_scraped_data_witness :
  WebScraper (mock_driver_no_close site_1991) no_dateutil
             [("WAKKANAI", ("47401", "1"))]%string []
  = (Raise (External "WebDriverException"),
     wakkanai_scraped (mock_driver_no_close site_1991)
                      (mkMock "47401" (site_1991 "47401"))).
Proof.
  apply (close_failure_loses_scraped_data (mock_driver_no_close site_1991)
           no_dateutil [("WAKKANAI", ("47401", "1"))]%string []
           (mkMock "" []) (mkMock "47401" (site_1991 "47401"))
           (mkMock "47401" (site_1991 "47401"))
           (wakkanai_scraped (mock_driver_no_close site_1991)
                             (mkMock "47401" (site_1991 "47401")))).
  - reflexivity.
  - vm_compute. reflexivity.
  - reflexivity.
  - reflexivity.
Defined.

(** ** Edges *)

Section Edges.

Variable drv : WebDriver.
Variable dateutil : string -> result Timestamp.

Lemma load_row_ok (station data_type year : string) (rest : list string)
      (ins : list observation) (w : World drv) :
  String.eqb year "Year" = false ->
  data_insert dateutil station (year :: rest) = Ok ins ->
  load_row dateutil station data_type (year :: rest) w
  = (Ok tt, with_records data_type ins w).
Proof.
  intros Hh E. unfold with_records.
  destruct (String.eqb data_type "1") eqn:H1.
  - apply String.eqb_eq in H1. subst data_type.
    now rewrite (load_row_temp drv dateutil _ _ _ _ w Hh E).
  - destruct (String.eqb data_type "4") eqn:H4.
    + apply String.eqb_eq in H4. subst data_type.
      now rewrite (load_row_wind drv dateutil _ _ _ _ w Hh E).
    + rewrite (load_row_other drv dateutil _ _ _ w H1 H4), Hh, E.
      reflexivity.
Qed.

(** A row that is not the header is taken whole or not at all:
    either the loop body raises and the scraper is as it was, or it
    returns normally and exactly twelve records were added to the
    data set that the channel code selects. *)
Theorem load_row_all_or_nothing (station data_type : string)
        (data : list string) (w : World drv) :
  hd_error data <> Some "Year"%string ->
  (exists e, load_row dateutil station data_type data w = (Raise e, w))
  \/ (exists ins,
         length ins = 12
         /\ data_insert dateutil station data = Ok ins
         /\ load_row dateutil station data_type data w
            = (Ok tt, with_records data_type ins w)).
Proof.
  intros Hh. destruct data as [|year rest].
  - left. exists IndexError. reflexivity.
  - assert (Hy : String.eqb year "Year" = false).
    { destruct (String.eqb_spec year "Year") as [->|]; [|reflexivity].
      now contradiction Hh. }
    destruct (data_insert dateutil station (year :: rest)) as [ins|e] eqn:E.
    + right. exists ins.
      destruct (data_insert_frame dateutil station _ ins E) as (_ & Hl & _).
      repeat split; [exact Hl|]. now apply load_row_ok.
    + left. exists e. now apply load_row_raise.
Qed.

(** A page on which the table is not found, or has no row, is no
    error: [load_data] returns normally and the station adds
    nothing. *)
Theorem load_data_empty_page (station data_type : string) (b : browser drv)
        (w : World drv) :
  static_page drv b [] ->
  driver w = Some b ->
  load_data dateutil station data_type w = (Ok tt, w).
Proof.
  intros Hp Hd.
  rewrite (load_data_static drv dateutil station data_type b [] w Hp Hd).
  reflexivity.
Qed.

(** With a mapping that names no station, a run whose browser works
    scrapes nothing and still writes both files, each with no record
    in it, over whatever they held. *)
Theorem empty_configuration_writes_empty_files
        (fs : list (string * list observation)) (b b1 b2 b3 : browser drv) :
  Chrome drv = Ok b ->
  get drv url b = (Ok tt, b1) ->
  implicitly_wait drv 10 b1 = (Ok tt, b2) ->
  close drv b2 = (Ok tt, b3) ->
  fst (WebScraper drv dateutil [] fs) = Ok tt
  /\ file_get "data_temp.json" (files (snd (WebScraper drv dateutil [] fs)))
     = Some []
  /\ file_get "data_wind.json" (files (snd (WebScraper drv dateutil [] fs)))
     = Some [].
Proof.
  intros Hb Hg Hi Hc.
  assert (G : get_data dateutil (mkWorld drv [] [] [] (Some b) fs)
              = (Ok tt, mkWorld drv [] [] [] (Some b2) fs)).
  { unfold get_data, bind, on_driver.
    cbn [driver self_station_dict data_temp data_wind files].
    rewrite Hg. cbn [driver self_station_dict data_temp data_wind files].
    rewrite Hi. reflexivity. }
  rewrite (pipeline_after_get_data drv dateutil [] fs b b2 b3 _ (Ok tt)
             Hb G eq_refl Hc).
  repeat split.
Qed.

End Edges.

Lemma load_row_all_or_nothing_witness :
  (exists e,
      load_row no_dateutil "OMU" "4" row_1992
               (mkWorld (mock_driver site_1991) station_dict [] [] None [])
      = (Raise e, mkWorld (mock_driver site_1991) station_dict [] [] None []))
  \/ (exists ins,
         length ins = 12
         /\ data_insert no_dateutil "OMU" row_1992 = Ok ins
         /\ load_row no_dateutil "OMU" "4" row_1992
                     (mkWorld (mock_driver site_1991) station_dict [] [] None [])
            = (Ok tt,
               with_records "4" ins
                 (mkWorld (mock_driver site_1991) station_dict [] [] None []))).
Proof.
  apply (load_row_all_or_nothing (mock_driver site_1991) no_dateutil
           "OMU" "4" row_1992).
  discriminate.
Defined.

Lemma load_data_empty_page_witness :
  load_data no_dateutil "OMU" "4"
            (mkWorld (mock_driver site_1991) station_dict [] []
                     (Some (mkMock "47405" [])) [])
  = (Ok tt,
     mkWorld (mock_driver site_1991) station_dict [] []
             (Some (mkMock "47405" [])) []).
Proof.
  apply (load_data_empty_page (mock_driver site_1991) no_dateutil "OMU" "4"
           (mkMock "47405" [])).
  - apply (mock_static_page site_1991 (mkMock "47405" [])).
  - reflexivity.
Defined.

Lemma empty_configuration_writes_empty_files_witness :
  fst (WebScraper (mock_driver site_1991) no_dateutil []
                  [("data_temp.json"%string, row_records "WAKKANAI" row_1991)])
  = Ok tt
  /\ file_get "data_temp.json"
       (files (snd (WebScraper (mock_driver site_1991) no_dateutil []
                      [("data_temp.json"%string,
                        row_records "WAKKANAI" row_1991)])))
     = Some []
  /\ file_get "data_wind.json"
       (files (snd (WebScraper (mock_driver site_1991) no_dateutil []
                      [("data_temp.json"%string,
                        row_records "WAKKANAI" row_1991)])))
     = Some [].
Proof.
  apply (empty_configuration_writes_empty_files (mock_driver site_1991)
           no_dateutil
           [("data_temp.json"%string, row_records "WAKKANAI" row_1991)]
           (mkMock "" []) (mkMock "" []) (mkMock "" []) (mkMock "" []));
    reflexivity.
Defined.

Lemma run_records_name_configured_stations_witness :
  In (Station (mkObservation "1991-01-01" "1.0" "WAKKANAI"))
     ["WAKKANAI"; "HABORO"; "RUMOI"; "OBIHIRO"]%string.
Proof.
  apply (proj1 (run_records_name_configured_stations
                  (mock_driver site_1991) no_dateutil
                  [("WAKKANAI", ("47401", "1"))]%string []
                  (mkObservation "1991-01-01" "1.0" "WAKKANAI"))).
  vm_compute. left. reflexivity.
Defined.

Example subseq_examples :
  subseq "5.3" ("5.3" ++ String newline "Revision: 12.-") = true
  /\ subseq "53." "5.3" = false.
Proof. vm_compute. split; reflexivity. Qed.
